(** * Formulas of the resource-progression engine: a shallow embedding

    The [Formula] class, its factories and the two purchase utilities
    ([calculateMaxAffordable], [calculateCost]) are embedded as Rocq
    functions.  A thrown string is an explicit [Throw], a Vue [ref] is a
    cell of an explicit heap, and a JavaScript value that may be
    [undefined] is an [option].

    Two collaborators of the class are outside this development and are
    taken as parameters: the numeric type ([Decimal], a record of
    operations) and the operation registry ([ops]), whose callbacks are
    referred to by name and run through an interpreter record. *)

From Stdlib Require Import List String ZArith Bool Arith Lia.
Import ListNotations.
Local Open Scope string_scope.
Local Open Scope list_scope.
Local Open Scope nat_scope.

Set Implicit Arguments.

(** ** Outcomes: a value or a thrown string *)

Inductive Result (A : Type) : Type :=
| Ok (a : A)
| Throw (msg : string).
Arguments Ok {A} a.
Arguments Throw {A} msg.

Definition rbind {A B : Type} (r : Result A) (k : A -> Result B) : Result B :=
  match r with
  | Ok a => k a
  | Throw msg => Throw msg
  end.

Definition isThrow {A : Type} (r : Result A) : bool :=
  match r with
  | Ok _ => false
  | Throw _ => true
  end.

(** ** The numeric substrate

    [Decimal] is an external arbitrary-precision type.  Only the
    operations that the embedded functions call are listed.  [d_undef]
    is the number that [Decimal] reads from an absent argument. *)

Record DecimalOps (D : Type) : Type := {
  d_ofZ : Z -> D;
  d_add : D -> D -> D;
  d_sub : D -> D -> D;
  d_div : D -> D -> D;
  d_pow : D -> D -> D;
  d_floor : D -> D;
  d_eq : D -> D -> bool;
  d_lt : D -> D -> bool;
  d_gt : D -> D -> bool;
  d_undef : D
}.

(** The integers as a small instance of the substrate, used to run the
    model on concrete formulas. *)
Definition ZDecimal : DecimalOps Z := {|
  d_ofZ := fun z => z;
  d_add := Z.add;
  d_sub := Z.sub;
  d_div := Z.div;
  d_pow := Z.pow;
  d_floor := fun z => z;
  d_eq := Z.eqb;
  d_lt := Z.ltb;
  d_gt := Z.gtb;
  d_undef := 0%Z
|}.

(** ** Callbacks

    A node stores references to functions and [equals] compares them by
    identity, so a callback is its name.  [integrateVariable] and
    [integrateVariableInner] are defined next to the class; [Decimal.f]
    and [ops.f] live in the two external modules; [evalStep] and
    [invertStep] are closures made afresh by each call of [step], told
    apart by the cell that the call allocates. *)

Inductive Callback : Type :=
| integrateVariable_fn
| integrateVariableInner_fn
| Decimal_fn (name : string)
| ops_fn (name : string)
| closure_fn (name : string) (cell : nat).

Definition Callback_eqb (a b : Callback) : bool :=
  match a, b with
  | integrateVariable_fn, integrateVariable_fn => true
  | integrateVariableInner_fn, integrateVariableInner_fn => true
  | Decimal_fn n, Decimal_fn m => String.eqb n m
  | ops_fn n, ops_fn m => String.eqb n m
  | closure_fn n c, closure_fn m d => String.eqb n m && Nat.eqb c d
  | _, _ => false
  end.

(** [a === b] on two optional callbacks. *)
Definition same_callback (a b : option Callback) : bool :=
  match a, b with
  | None, None => true
  | Some x, Some y => Callback_eqb x y
  | _, _ => false
  end.

Definition isSome {A : Type} (o : option A) : bool :=
  match o with
  | Some _ => true
  | None => false
  end.

Section Model.

Context {D : Type}.

(** ** Data model *)

(** [ProcessedComputable<DecimalSource>]: a plain value or a cell. *)
Inductive ProcessedComputable : Type :=
| PCValue (d : D)
| PCRef (cell : nat).

Inductive FormulaSourceOf (F : Type) : Type :=
| FSFormula (f : F)
| FSValue (v : ProcessedComputable).
Arguments FSValue {F} v.
Scheme All for FormulaSourceOf.
Scheme All for list.

Inductive Formula : Type := mkFormula {
  inputs : list (FormulaSourceOf Formula);
  internalEvaluate : option Callback;
  internalInvert : option Callback;
  internalIntegrate : option Callback;
  internalIntegrateInner : option Callback;
  applySubstitution : option Callback;
  internalInvertIntegral : option Callback;
  internalHasVariable : bool;
  innermostVariable : option ProcessedComputable
}.

Definition FormulaSource : Type := FormulaSourceOf Formula.

(** [GeneralFormulaOptions]; the two other shapes of [FormulaOptions]
    are the first two constructors of [FormulaOptions] below. *)
Record GeneralFormulaOptions : Type := {
  o_inputs : list FormulaSource;
  o_evaluate : Callback;
  o_invert : option Callback;
  o_integrate : option Callback;
  o_integrateInner : option Callback;
  o_applySubstitution : option Callback;
  o_invertIntegral : option Callback;
  o_hasVariable : option bool
}.

Inductive FormulaOptions : Type :=
| VariableOptions (variable : ProcessedComputable)
| ConstantOptions (inputs : list FormulaSource)
| GeneralOptions (options : GeneralFormulaOptions).

(** [InternalFormulaProperties], what the three [setup] methods return. *)
Record InternalFormulaProperties : Type := {
  p_inputs : list FormulaSource;
  p_internalHasVariable : bool;
  p_innermostVariable : option ProcessedComputable;
  p_internalEvaluate : option Callback;
  p_internalInvert : option Callback;
  p_internalIntegrate : option Callback;
  p_internalIntegrateInner : option Callback;
  p_applySubstitution : option Callback;
  p_internalInvertIntegral : option Callback
}.

(** ** Capability predicates *)

Definition isInvertible (this : Formula) : bool :=
  internalHasVariable this &&
  (isSome (internalInvert this) || negb (isSome (internalEvaluate this))).

Definition isIntegrable (this : Formula) : bool :=
  internalHasVariable this && isSome (internalIntegrate this).

Definition isIntegralInvertible (this : Formula) : bool :=
  internalHasVariable this &&
  (isSome (internalInvertIntegral this) || negb (isSome (internalEvaluate this))).

Definition Formula_hasVariable (this : Formula) : bool :=
  internalHasVariable this.

(** The free function [hasVariable(value)]. *)
Definition hasVariable (value : FormulaSource) : bool :=
  match value with
  | FSFormula f => Formula_hasVariable f
  | FSValue _ => false
  end.

(** ** Construction *)

Definition setupVariable (variable : ProcessedComputable) : InternalFormulaProperties := {|
  p_inputs := [FSValue variable];
  p_internalHasVariable := true;
  p_innermostVariable := Some variable;
  p_internalEvaluate := None;
  p_internalInvert := None;
  p_internalIntegrate := Some integrateVariable_fn;
  p_internalIntegrateInner := Some integrateVariableInner_fn;
  p_applySubstitution := Some (ops_fn "passthrough");
  p_internalInvertIntegral := None
|}.

Definition setupConstant (inputs : list FormulaSource) : Result InternalFormulaProperties :=
  if negb (Nat.eqb (List.length inputs) 1) then
    Throw "Evaluate function is required if inputs is not length 1"
  else
    Ok {|
      p_inputs := inputs;
      p_internalHasVariable := false;
      p_innermostVariable := None;
      p_internalEvaluate := None;
      p_internalInvert := None;
      p_internalIntegrate := None;
      p_internalIntegrateInner := None;
      p_applySubstitution := None;
      p_internalInvertIntegral := None
    |}.

(** [inputs.filter(input => input instanceof Formula && input.hasVariable()).length] *)
Definition numVariables (inputs : list FormulaSource) : nat :=
  List.length (filter hasVariable inputs).

(** [inputs.find(input => input instanceof Formula && input.hasVariable())] *)
Definition findVariable (inputs : list FormulaSource) : option Formula :=
  match find hasVariable inputs with
  | Some (FSFormula f) => Some f
  | _ => None
  end.

Definition setupFormula (options : GeneralFormulaOptions) : Result InternalFormulaProperties :=
  if negb (isSome (o_invert options)) && negb (isSome (o_invertIntegral options)) &&
     match o_hasVariable options with Some b => b | None => false end
  then Throw "A formula cannot be marked as having a variable if it is not invertible"
  else
    let numVariables := numVariables (o_inputs options) in
    let variable := findVariable (o_inputs options) in
    let internalHasVariable :=
      Nat.eqb numVariables 1 ||
      (Nat.eqb numVariables 0 &&
       match o_hasVariable options with Some true => true | _ => false end) in
    let innermostVariable :=
      if internalHasVariable then
        match variable with Some v => innermostVariable v | None => None end
      else None in
    let internalInvert :=
      if internalHasVariable &&
         match variable with Some v => isInvertible v | None => false end
      then o_invert options else None in
    let internalInvertIntegral :=
      if internalHasVariable &&
         match variable with Some v => isIntegralInvertible v | None => false end
      then o_invertIntegral options else None in
    Ok {|
      p_inputs := o_inputs options;
      p_internalEvaluate := Some (o_evaluate options);
      p_internalIntegrate := o_integrate options;
      p_internalIntegrateInner := o_integrateInner options;
      p_applySubstitution := o_applySubstitution options;
      p_innermostVariable := innermostVariable;
      p_internalHasVariable := internalHasVariable;
      p_internalInvert := internalInvert;
      p_internalInvertIntegral := internalInvertIntegral
    |}.

(** The constructor.  It copies six of the nine properties to the
    instance; [internalEvaluate], [internalInvert] and
    [internalInvertIntegral] are declared fields that it never assigns,
    so they stay [undefined]. *)
Definition new_Formula (options : FormulaOptions) : Result Formula :=
  rbind
    (match options with
     | VariableOptions variable => Ok (setupVariable variable)
     | ConstantOptions inputs => setupConstant inputs
     | GeneralOptions options => setupFormula options
     end)
    (fun readonlyProperties =>
       Ok {|
         inputs := p_inputs readonlyProperties;
         internalHasVariable := p_internalHasVariable readonlyProperties;
         innermostVariable := p_innermostVariable readonlyProperties;
         internalIntegrate := p_internalIntegrate readonlyProperties;
         internalIntegrateInner := p_internalIntegrateInner readonlyProperties;
         applySubstitution := p_applySubstitution readonlyProperties;
         internalEvaluate := None;
         internalInvert := None;
         internalInvertIntegral := None
       |}).

(** ** State: the cells of Vue refs

    A computation reads and writes the heap and may throw. *)

Definition Heap : Type := list D.

Definition M (A : Type) : Type := Heap -> Result (A * Heap).

Definition ret {A : Type} (a : A) : M A := fun h => Ok (a, h).

Definition throw {A : Type} (msg : string) : M A := fun _ => Throw msg.

Definition bind {A B : Type} (m : M A) (k : A -> M B) : M B :=
  fun h =>
    match m h with
    | Ok (a, h') => k a h'
    | Throw msg => Throw msg
    end.

Definition lift {A : Type} (r : Result A) : M A :=
  fun h =>
    match r with
    | Ok a => Ok (a, h)
    | Throw msg => Throw msg
    end.

Notation "x <- m ;; k" := (bind m (fun x => k))
  (at level 61, m at next level, right associativity).
Notation "' pat <- m ;; k" := (bind m (fun x => match x with pat => k end))
  (at level 61, pat pattern, m at next level, right associativity).

Fixpoint setNth (h : Heap) (cell : nat) (d : D) : Heap :=
  match h, cell with
  | [], _ => []
  | _ :: rest, O => d :: rest
  | x :: rest, S n => x :: setNth rest n d
  end.

(** [ref(d)] *)
Definition newCell (d : D) : M nat := fun h => Ok (List.length h, h ++ [d]).

(** [cell.value = d] *)
Definition writeCell (cell : nat) (d : D) : M unit := fun h => Ok (tt, setNth h cell d).

Definition unrefIn (h : Heap) (value : ProcessedComputable) : option D :=
  match value with
  | PCValue d => Some d
  | PCRef cell => nth_error h cell
  end.

(** [unref(value)] *)
Definition unref (value : ProcessedComputable) : M (option D) :=
  fun h => Ok (unrefIn h value, h).

(** [unref(value)] of a value that may be absent. *)
Definition unrefOpt (value : option ProcessedComputable) : M (option D) :=
  match value with
  | Some v => unref v
  | None => ret None
  end.

Variable dec : DecimalOps D.

(** The coercion that every [Decimal] operation applies to an argument. *)
Definition toDecimal (value : option D) : D :=
  match value with
  | Some d => d
  | None => d_undef dec
  end.

(** ** The operation registry

    A [SubstitutionStack] holds closures [v => this.applySubstitution(v,
    ...this.inputs)]; each is determined by its [this].  A callback that
    is handed a stack may push to it; the stack after the call is part
    of what it returns. *)

Definition SubstitutionStack : Type := list Formula.

Record Registry : Type := {
  callEvaluate :
    Callback -> Formula -> list (option D) -> M (option D);
  callInvert :
    Callback -> Formula -> D -> list FormulaSource -> M D;
  callIntegrate :
    Callback -> Formula -> option D -> option SubstitutionStack ->
    list FormulaSource -> M (option D * option SubstitutionStack);
  callSubstitution :
    Callback -> Formula -> option D -> list FormulaSource -> M (option D);
  callInvertIntegral :
    Callback -> Formula -> D -> list FormulaSource -> M D
}.

(** A registry with no operation in it: every call throws. *)
Definition emptyRegistry : Registry := {|
  callEvaluate := fun _ _ _ => throw "unknown operation";
  callInvert := fun _ _ _ _ => throw "unknown operation";
  callIntegrate := fun _ _ _ _ _ => throw "unknown operation";
  callSubstitution := fun _ _ _ _ => throw "unknown operation";
  callInvertIntegral := fun _ _ _ _ => throw "unknown operation"
|}.

Variable reg : Registry.

(** ** Queries *)

Fixpoint evaluate (this : Formula) (variable : option D) {struct this} : M (option D) :=
  let unrefSource (value : FormulaSource) (variable : option D) : M (option D) :=
    match value with
    | FSFormula f => evaluate f variable
    | FSValue v => unref v
    end in
  let rest : M (option D) :=
    match (if internalHasVariable this then variable else None) with
    | Some v => ret (Some v)
    | None =>
        match inputs this with
        | input :: _ => unrefSource input None
        | [] => ret None
        end
    end in
  match internalEvaluate this with
  | Some callback =>
      args <- (fix mapInputs (l : list FormulaSource) : M (list (option D)) :=
                 match l with
                 | [] => ret []
                 | input :: l' =>
                     a <- unrefSource input variable ;;
                     r <- mapInputs l' ;;
                     ret (a :: r)
                 end) (inputs this) ;;
      result <- callEvaluate reg callback this args ;;
      match result with
      | Some v => ret (Some v)
      | None => rest
      end
  | None => rest
  end.

Definition unrefFormulaSource (value : option FormulaSource) (variable : option D)
  : M (option D) :=
  match value with
  | Some (FSFormula f) => evaluate f variable
  | Some (FSValue v) => unref v
  | None => ret None
  end.

Definition invert (this : Formula) (value : D) : M D :=
  match internalInvert this with
  | Some callback => callInvert reg callback this value (inputs this)
  | None =>
      if Nat.eqb (List.length (inputs this)) 1 && internalHasVariable this
      then ret value
      else throw "Cannot invert non-invertible formula"
  end.

Definition integrateVariable (variable : option D) : D :=
  d_div dec (d_pow dec (toDecimal variable) (d_ofZ dec 2)) (d_ofZ dec 2).

Definition integrateVariableInner (this : Formula) (variable : option D) : M (option D) :=
  if negb (isSome variable) && negb (isSome (innermostVariable this)) then
    throw "Cannot integrate non-existent variable"
  else
    match variable with
    | Some v => ret (Some v)
    | None => unrefOpt (innermostVariable this)
    end.

(** [callback.call(this, variable, stack, ...inputs)] for an integrate
    callback: the two functions of this file, or one of the registry. *)
Definition runIntegrate (callback : Callback) (this : Formula) (variable : option D)
    (stack : option SubstitutionStack) (inputs : list FormulaSource)
  : M (option D * option SubstitutionStack) :=
  match callback with
  | integrateVariable_fn => ret (Some (integrateVariable variable), stack)
  | integrateVariableInner_fn =>
      v <- integrateVariableInner this variable ;;
      ret (v, stack)
  | _ => callIntegrate reg callback this variable stack inputs
  end.

(** One entry of the stack applied to a value. *)
Definition applyEntry (func : Formula) (value : option D) : M (option D) :=
  match applySubstitution func with
  | Some callback => callSubstitution reg callback func value (inputs func)
  | None => throw "TypeError: applySubstitution is undefined"
  end.

(** [stack.forEach(func => (value = func(value)))] *)
Fixpoint applyStack (stack : SubstitutionStack) (value : option D) : M (option D) :=
  match stack with
  | [] => ret value
  | func :: stack' =>
      value' <- applyEntry func value ;;
      applyStack stack' value'
  end.

Definition evaluateIntegral (this : Formula) (variable : option D)
    (stack : option SubstitutionStack) : M (option D * option SubstitutionStack) :=
  match stack with
  | None =>
      match applySubstitution this with
      | None =>
          match internalIntegrate this with
          | None => throw "Cannot integrate formula with non-existent operation"
          | Some callback =>
              '(value, stack') <- runIntegrate callback this variable (Some []) (inputs this) ;;
              value' <- applyStack (match stack' with Some s => s | None => [] end) value ;;
              ret (value', None)
          end
      | Some _ =>
          match internalIntegrate this with
          | Some callback =>
              '(value, _) <- runIntegrate callback this variable None (inputs this) ;;
              ret (value, None)
          | None =>
              if Nat.eqb (List.length (inputs this)) 1 && internalHasVariable this then
                v <- match variable with
                     | Some v => ret (Some v)
                     | None => unrefFormulaSource (hd_error (inputs this)) None
                     end ;;
                ret (Some (integrateVariable v), None)
              else throw "Cannot integrate formula without variable"
          end
      end
  | Some stack =>
      match applySubstitution this with
      | None => throw "Cannot have two complex operations in an integrable formula"
      | Some _ =>
          let stack := stack ++ [this] in
          match internalIntegrateInner this with
          | Some callback => runIntegrate callback this variable (Some stack) (inputs this)
          | None =>
              match internalIntegrate this with
              | Some callback => runIntegrate callback this variable (Some stack) (inputs this)
              | None =>
                  if Nat.eqb (List.length (inputs this)) 1 && internalHasVariable this then
                    v <- match variable with
                         | Some v => ret (Some v)
                         | None => unrefFormulaSource (hd_error (inputs this)) None
                         end ;;
                    ret (v, Some stack)
                  else throw "Cannot integrate formula without variable"
              end
          end
      end
  end.

Definition calculateConstantOfIntegration (this : Formula) : M D :=
  '(integral, _) <- evaluateIntegral this (Some (d_ofZ dec 1)) None ;;
  actualCost <- evaluate this (Some (d_ofZ dec 0)) ;;
  ret (d_sub dec (toDecimal actualCost) (toDecimal integral)).

Definition invertIntegral (this : Formula) (value : D) : M D :=
  match internalInvertIntegral this with
  | Some callback => callInvertIntegral reg callback this value (inputs this)
  | None =>
      if Nat.eqb (List.length (inputs this)) 1 && internalHasVariable this
      then ret value
      else throw "Cannot invert integral of formula without invertible integral"
  end.

(** [equals] reads the cells of leaf inputs but writes nothing, so it
    takes the heap as an argument.  [other.inputs[i]] is [undefined]
    past the end of [other.inputs]. *)
Fixpoint equals (h : Heap) (this other : Formula) {struct this} : bool :=
  Nat.eqb (List.length (inputs this)) (List.length (inputs other)) &&
  (fix every (l : list FormulaSource) (i : nat) {struct l} : bool :=
     match l with
     | [] => true
     | input :: l' =>
         match input, nth_error (inputs other) i with
         | FSFormula a, Some (FSFormula b) => equals h a b
         | FSFormula _, _ => false
         | FSValue _, Some (FSFormula _) => false
         | FSValue a, Some (FSValue b) =>
             d_eq dec (toDecimal (unrefIn h a)) (toDecimal (unrefIn h b))
         | FSValue a, None =>
             d_eq dec (toDecimal (unrefIn h a)) (toDecimal None)
         end && every l' (S i)
     end) (inputs this) 0 &&
  same_callback (internalEvaluate this) (internalEvaluate other) &&
  same_callback (internalInvert this) (internalInvert other) &&
  same_callback (internalIntegrate this) (internalIntegrate other) &&
  same_callback (internalInvertIntegral this) (internalInvertIntegral other) &&
  Bool.eqb (internalHasVariable this) (internalHasVariable other).

(** The test that [equals] makes on one pair of inputs. *)
Definition sourceEquals (h : Heap) (input other : FormulaSource) : bool :=
  match input, other with
  | FSFormula a, FSFormula b => equals h a b
  | FSValue a, FSValue b => d_eq dec (toDecimal (unrefIn h a)) (toDecimal (unrefIn h b))
  | _, _ => false
  end.

(** ** Factories *)

Definition Formula_constant (value : ProcessedComputable) : Result Formula :=
  new_Formula (ConstantOptions [FSValue value]).

Definition Formula_variable (value : ProcessedComputable) : Result Formula :=
  new_Formula (VariableOptions value).

Definition Formula_abs (value : FormulaSource) : Result Formula :=
  new_Formula (GeneralOptions {|
    o_inputs := [value];
    o_evaluate := Decimal_fn "abs";
    o_invert := None;
    o_integrate := None;
    o_integrateInner := None;
    o_applySubstitution := None;
    o_invertIntegral := None;
    o_hasVariable := None |}).

Definition Formula_floor (value : FormulaSource) : Result Formula :=
  new_Formula (GeneralOptions {|
    o_inputs := [value];
    o_evaluate := Decimal_fn "floor";
    o_invert := None;
    o_integrate := None;
    o_integrateInner := None;
    o_applySubstitution := None;
    o_invertIntegral := None;
    o_hasVariable := None |}).

Definition Formula_neg (value : FormulaSource) : Result Formula :=
  new_Formula (GeneralOptions {|
    o_inputs := [value];
    o_evaluate := Decimal_fn "neg";
    o_invert := Some (ops_fn "invertNeg");
    o_integrate := Some (ops_fn "integrateNeg");
    o_integrateInner := None;
    o_applySubstitution := Some (ops_fn "applySubstitutionNeg");
    o_invertIntegral := None;
    o_hasVariable := None |}).

Definition Formula_add (value other : FormulaSource) : Result Formula :=
  new_Formula (GeneralOptions {|
    o_inputs := [value; other];
    o_evaluate := Decimal_fn "add";
    o_invert := Some (ops_fn "invertAdd");
    o_integrate := Some (ops_fn "integrateAdd");
    o_integrateInner := Some (ops_fn "integrateInnerAdd");
    o_applySubstitution := Some (ops_fn "passthrough");
    o_invertIntegral := Some (ops_fn "invertIntegrateAdd");
    o_hasVariable := None |}).

Definition Formula_sub (value other : FormulaSource) : Result Formula :=
  new_Formula (GeneralOptions {|
    o_inputs := [value; other];
    o_evaluate := Decimal_fn "sub";
    o_invert := Some (ops_fn "invertSub");
    o_integrate := Some (ops_fn "integrateSub");
    o_integrateInner := Some (ops_fn "integrateInnerSub");
    o_applySubstitution := Some (ops_fn "passthrough");
    o_invertIntegral := Some (ops_fn "invertIntegrateSub");
    o_hasVariable := None |}).

Definition Formula_mul (value other : FormulaSource) : Result Formula :=
  new_Formula (GeneralOptions {|
    o_inputs := [value; other];
    o_evaluate := Decimal_fn "mul";
    o_invert := Some (ops_fn "invertMul");
    o_integrate := Some (ops_fn "integrateMul");
    o_integrateInner := None;
    o_applySubstitution := Some (ops_fn "applySubstitutionMul");
    o_invertIntegral := Some (ops_fn "invertIntegrateMul");
    o_hasVariable := None |}).

Definition Formula_pow (value other : FormulaSource) : Result Formula :=
  new_Formula (GeneralOptions {|
    o_inputs := [value; other];
    o_evaluate := Decimal_fn "pow";
    o_invert := Some (ops_fn "invertPow");
    o_integrate := Some (ops_fn "integratePow");
    o_integrateInner := None;
    o_applySubstitution := None;
    o_invertIntegral := Some (ops_fn "invertIntegratePow");
    o_hasVariable := None |}).

(** The two closures of [step], over the variables they capture. *)
Definition evalStep (lhsRef : nat) (formula : Formula)
    (processedStart : ProcessedComputable) (lhs : D) : M (option D) :=
  start <- unref processedStart ;;
  if d_lt dec lhs (toDecimal start) then ret (Some lhs)
  else
    start <- unref processedStart ;;
    _ <- writeCell lhsRef (d_sub dec lhs (toDecimal start)) ;;
    result <- evaluate formula None ;;
    start <- unref processedStart ;;
    ret (Some (d_add dec (toDecimal result) (toDecimal start))).

Definition invertStep (formula : Formula) (processedStart : ProcessedComputable)
    (value : D) (lhs : FormulaSource) : M D :=
  match lhs with
  | FSFormula l =>
      if Formula_hasVariable l then
        start <- unref processedStart ;;
        value <- (if d_gt dec value (toDecimal start) then
                    start <- unref processedStart ;;
                    inner <- invert formula (d_sub dec value (toDecimal start)) ;;
                    start <- unref processedStart ;;
                    ret (d_add dec inner (toDecimal start))
                  else ret value) ;;
        invert l value
      else throw "Could not invert due to no input being a variable"
  | FSValue _ => throw "Could not invert due to no input being a variable"
  end.

(** [Formula.step].  [start] is taken already processed.  The node
    refers to the two closures above by identity. *)
Definition Formula_step (value : FormulaSource) (start : ProcessedComputable)
    (formulaModifier : Formula -> M Formula) : M Formula :=
  lhsRef <- newCell (d_ofZ dec 0) ;;
  variable <- lift (Formula_variable (PCRef lhsRef)) ;;
  formula <- formulaModifier variable ;;
  lift (new_Formula (GeneralOptions {|
    o_inputs := [value];
    o_evaluate := closure_fn "evalStep" lhsRef;
    o_invert :=
      if isInvertible formula && Formula_hasVariable formula
      then Some (closure_fn "invertStep" lhsRef) else None;
    o_integrate := None;
    o_integrateInner := None;
    o_applySubstitution := None;
    o_invertIntegral := None;
    o_hasVariable := None |})).

(** ** Purchase utilities *)

(** A resource, as far as the utilities read it: its current balance. *)
Record Resource : Type := { Resource_value : D }.

(** The body of the computed value that [calculateMaxAffordable] returns. *)
Definition calculateMaxAffordable (formula : Formula) (resource : Resource)
    (spendResources : bool) : M D :=
  if spendResources then
    if negb (isIntegrable formula) || negb (isIntegralInvertible formula) then
      throw "Cannot calculate max affordable of formula with non-invertible integral"
    else
      '(integral, _) <- evaluateIntegral formula None None ;;
      x <- invertIntegral formula (d_add dec (Resource_value resource) (toDecimal integral)) ;;
      current <- unrefOpt (innermostVariable formula) ;;
      ret (d_sub dec (d_floor dec x)
             (match current with Some c => c | None => d_ofZ dec 0 end))
  else
    if negb (isInvertible formula) then
      throw "Cannot calculate max affordable of non-invertible formula"
    else
      x <- invert formula (Resource_value resource) ;;
      ret (d_floor dec x).

Definition calculateCost (formula : Formula) (amountToBuy : D) (spendResources : bool)
  : M (option D) :=
  current <- unrefOpt (innermostVariable formula) ;;
  let newValue :=
    d_add dec amountToBuy (match current with Some c => c | None => d_ofZ dec 0 end) in
  if spendResources then
    '(upper, _) <- evaluateIntegral formula (Some newValue) None ;;
    '(lower, _) <- evaluateIntegral formula None None ;;
    ret (Some (d_sub dec (toDecimal upper) (toDecimal lower)))
  else
    evaluate formula (Some newValue).

(** ** The formulas of the documented scenarios *)

(** [variable(x).add(1).pow(2)] *)
Definition scenario_add_pow (x : ProcessedComputable) : Result Formula :=
  rbind (Formula_variable x) (fun v =>
  rbind (Formula_add (FSFormula v) (FSValue (PCValue (d_ofZ dec 1)))) (fun s =>
  Formula_pow (FSFormula s) (FSValue (PCValue (d_ofZ dec 2))))).

(** [variable(x).add(1)] *)
Definition scenario_add (x : ProcessedComputable) : Result Formula :=
  rbind (Formula_variable x) (fun v =>
  Formula_add (FSFormula v) (FSValue (PCValue (d_ofZ dec 1)))).

(** [variable(x).mul(2)] *)
Definition scenario_mul (x : ProcessedComputable) : Result Formula :=
  rbind (Formula_variable x) (fun v =>
  Formula_mul (FSFormula v) (FSValue (PCValue (d_ofZ dec 2)))).

(** [step(variable(x), 150, v => v.mul(2))] *)
Definition scenario_step (x : ProcessedComputable) : M Formula :=
  v <- lift (Formula_variable x) ;;
  Formula_step (FSFormula v) (PCValue (d_ofZ dec 150))
    (fun v => lift (Formula_mul (FSFormula v) (FSValue (PCValue (d_ofZ dec 2))))).

(** [f.evaluate(f.invert(v))] and [f.invert(f.evaluate(v))] *)
Definition evaluate_of_invert (f : Formula) (v : D) : M (option D) :=
  x <- invert f v ;;
  evaluate f (Some x).

Definition invert_of_evaluate (f : Formula) (v : D) : M D :=
  y <- evaluate f (Some v) ;;
  invert f (toDecimal y).

(** The node that [new Formula({ variable })] builds. *)
Definition variableNode (variable : ProcessedComputable) : Formula := {|
  inputs := [FSValue variable];
  internalEvaluate := None;
  internalInvert := None;
  internalIntegrate := Some integrateVariable_fn;
  internalIntegrateInner := Some integrateVariableInner_fn;
  applySubstitution := Some (ops_fn "passthrough");
  internalInvertIntegral := None;
  internalHasVariable := true;
  innermostVariable := Some variable
|}.

(** The test under which [setupFormula] throws. *)
Definition marked_without_inverse (options : GeneralFormulaOptions) : bool :=
  negb (isSome (o_invert options)) && negb (isSome (o_invertIntegral options)) &&
  match o_hasVariable options with Some b => b | None => false end.

(** [unref(formula.innermostVariable) ?? 0] in heap [h]. *)
Definition currentVariable (formula : Formula) (h : Heap) : D :=
  match innermostVariable formula with
  | Some cell =>
      match unrefIn h cell with
      | Some current => current
      | None => d_ofZ dec 0
      end
  | None => d_ofZ dec 0
  end.

(** The loop of [equals] over the inputs, on its own: the test of one
    input against [other.inputs[i]], and [every] from index [i] on. *)
Definition inputEquals (h : Heap) (input : FormulaSource) (other : option FormulaSource)
  : bool :=
  match input, other with
  | FSFormula a, Some (FSFormula b) => equals h a b
  | FSFormula _, _ => false
  | FSValue _, Some (FSFormula _) => false
  | FSValue a, Some (FSValue b) =>
      d_eq dec (toDecimal (unrefIn h a)) (toDecimal (unrefIn h b))
  | FSValue a, None =>
      d_eq dec (toDecimal (unrefIn h a)) (toDecimal None)
  end.

Fixpoint everyInput (h : Heap) (l others : list FormulaSource) (i : nat) : bool :=
  match l with
  | [] => true
  | input :: l' => inputEquals h input (nth_error others i) && everyInput h l' others (S i)
  end.

(** ** The rest of the catalogue of factories

    Every factory hands an object literal to the constructor; none sets
    the has-variable flag.  An optional argument is an [option]; left
    out, it takes the default of the source. *)

Definition Formula_sign (value : FormulaSource) : Result Formula :=
  new_Formula (GeneralOptions {|
    o_inputs := [value];
    o_evaluate := Decimal_fn "sign";
    o_invert := None;
    o_integrate := None;
    o_integrateInner := None;
    o_applySubstitution := None;
    o_invertIntegral := None;
    o_hasVariable := None |}).

Definition Formula_round (value : FormulaSource) : Result Formula :=
  new_Formula (GeneralOptions {|
    o_inputs := [value];
    o_evaluate := Decimal_fn "round";
    o_invert := None;
    o_integrate := None;
    o_integrateInner := None;
    o_applySubstitution := None;
    o_invertIntegral := None;
    o_hasVariable := None |}).

Definition Formula_ceil (value : FormulaSource) : Result Formula :=
  new_Formula (GeneralOptions {|
    o_inputs := [value];
    o_evaluate := Decimal_fn "ceil";
    o_invert := None;
    o_integrate := None;
    o_integrateInner := None;
    o_applySubstitution := None;
    o_invertIntegral := None;
    o_hasVariable := None |}).

Definition Formula_trunc (value : FormulaSource) : Result Formula :=
  new_Formula (GeneralOptions {|
    o_inputs := [value];
    o_evaluate := Decimal_fn "trunc";
    o_invert := None;
    o_integrate := None;
    o_integrateInner := None;
    o_applySubstitution := None;
    o_invertIntegral := None;
    o_hasVariable := None |}).

Definition Formula_div (value other : FormulaSource) : Result Formula :=
  new_Formula (GeneralOptions {|
    o_inputs := [value; other];
    o_evaluate := Decimal_fn "div";
    o_invert := Some (ops_fn "invertDiv");
    o_integrate := Some (ops_fn "integrateDiv");
    o_integrateInner := None;
    o_applySubstitution := Some (ops_fn "applySubstitutionDiv");
    o_invertIntegral := Some (ops_fn "invertIntegrateDiv");
    o_hasVariable := None |}).

Definition Formula_recip (value : FormulaSource) : Result Formula :=
  new_Formula (GeneralOptions {|
    o_inputs := [value];
    o_evaluate := Decimal_fn "recip";
    o_invert := Some (ops_fn "invertRecip");
    o_integrate := Some (ops_fn "integrateRecip");
    o_integrateInner := None;
    o_applySubstitution := None;
    o_invertIntegral := Some (ops_fn "invertIntegrateRecip");
    o_hasVariable := None |}).

Definition Formula_max (value other : FormulaSource) : Result Formula :=
  new_Formula (GeneralOptions {|
    o_inputs := [value; other];
    o_evaluate := Decimal_fn "max";
    o_invert := Some (ops_fn "passthrough");
    o_integrate := None;
    o_integrateInner := None;
    o_applySubstitution := None;
    o_invertIntegral := Some (ops_fn "passthrough");
    o_hasVariable := None |}).

Definition Formula_clamp (value min max : FormulaSource) : Result Formula :=
  new_Formula (GeneralOptions {|
    o_inputs := [value; min; max];
    o_evaluate := Decimal_fn "clamp";
    o_invert := Some (ops_fn "passthrough");
    o_integrate := None;
    o_integrateInner := None;
    o_applySubstitution := None;
    o_invertIntegral := Some (ops_fn "passthrough");
    o_hasVariable := None |}).

Definition Formula_pLog10 (value : FormulaSource) : Result Formula :=
  new_Formula (GeneralOptions {|
    o_inputs := [value];
    o_evaluate := Decimal_fn "pLog10";
    o_invert := None;
    o_integrate := None;
    o_integrateInner := None;
    o_applySubstitution := None;
    o_invertIntegral := None;
    o_hasVariable := None |}).

Definition Formula_absLog10 (value : FormulaSource) : Result Formula :=
  new_Formula (GeneralOptions {|
    o_inputs := [value];
    o_evaluate := Decimal_fn "absLog10";
    o_invert := None;
    o_integrate := None;
    o_integrateInner := None;
    o_applySubstitution := None;
    o_invertIntegral := None;
    o_hasVariable := None |}).

Definition Formula_log10 (value : FormulaSource) : Result Formula :=
  new_Formula (GeneralOptions {|
    o_inputs := [value];
    o_evaluate := Decimal_fn "log10";
    o_invert := Some (ops_fn "invertLog10");
    o_integrate := Some (ops_fn "integrateLog10");
    o_integrateInner := None;
    o_applySubstitution := None;
    o_invertIntegral := Some (ops_fn "invertIntegrateLog10");
    o_hasVariable := None |}).

Definition Formula_log (value base : FormulaSource) : Result Formula :=
  new_Formula (GeneralOptions {|
    o_inputs := [value; base];
    o_evaluate := Decimal_fn "log";
    o_invert := Some (ops_fn "invertLog");
    o_integrate := Some (ops_fn "integrateLog");
    o_integrateInner := None;
    o_applySubstitution := None;
    o_invertIntegral := Some (ops_fn "invertIntegrateLog");
    o_hasVariable := None |}).

Definition Formula_log2 (value : FormulaSource) : Result Formula :=
  new_Formula (GeneralOptions {|
    o_inputs := [value];
    o_evaluate := Decimal_fn "log2";
    o_invert := Some (ops_fn "invertLog2");
    o_integrate := Some (ops_fn "integrateLog2");
    o_integrateInner := None;
    o_applySubstitution := None;
    o_invertIntegral := Some (ops_fn "invertIntegrateLog2");
    o_hasVariable := None |}).

Definition Formula_ln (value : FormulaSource) : Result Formula :=
  new_Formula (GeneralOptions {|
    o_inputs := [value];
    o_evaluate := Decimal_fn "ln";
    o_invert := Some (ops_fn "invertLn");
    o_integrate := Some (ops_fn "integrateLn");
    o_integrateInner := None;
    o_applySubstitution := None;
    o_invertIntegral := Some (ops_fn "invertIntegrateLn");
    o_hasVariable := None |}).

Definition Formula_pow10 (value : FormulaSource) : Result Formula :=
  new_Formula (GeneralOptions {|
    o_inputs := [value];
    o_evaluate := Decimal_fn "pow10";
    o_invert := Some (ops_fn "invertPow10");
    o_integrate := Some (ops_fn "integratePow10");
    o_integrateInner := None;
    o_applySubstitution := None;
    o_invertIntegral := Some (ops_fn "invertIntegratePow10");
    o_hasVariable := None |}).

Definition Formula_pow_base (value other : FormulaSource) : Result Formula :=
  new_Formula (GeneralOptions {|
    o_inputs := [value; other];
    o_evaluate := Decimal_fn "pow_base";
    o_invert := Some (ops_fn "invertPowBase");
    o_integrate := Some (ops_fn "integratePowBase");
    o_integrateInner := None;
    o_applySubstitution := None;
    o_invertIntegral := Some (ops_fn "invertIntegratePowBase");
    o_hasVariable := None |}).

Definition Formula_root (value other : FormulaSource) : Result Formula :=
  new_Formula (GeneralOptions {|
    o_inputs := [value; other];
    o_evaluate := Decimal_fn "root";
    o_invert := Some (ops_fn "invertRoot");
    o_integrate := Some (ops_fn "integrateRoot");
    o_integrateInner := None;
    o_applySubstitution := None;
    o_invertIntegral := Some (ops_fn "invertIntegrateRoot");
    o_hasVariable := None |}).

Definition Formula_factorial (value : FormulaSource) : Result Formula :=
  new_Formula (GeneralOptions {|
    o_inputs := [value];
    o_evaluate := Decimal_fn "factorial";
    o_invert := None;
    o_integrate := None;
    o_integrateInner := None;
    o_applySubstitution := None;
    o_invertIntegral := None;
    o_hasVariable := None |}).

Definition Formula_gamma (value : FormulaSource) : Result Formula :=
  new_Formula (GeneralOptions {|
    o_inputs := [value];
    o_evaluate := Decimal_fn "gamma";
    o_invert := None;
    o_integrate := None;
    o_integrateInner := None;
    o_applySubstitution := None;
    o_invertIntegral := None;
    o_hasVariable := None |}).

Definition Formula_lngamma (value : FormulaSource) : Result Formula :=
  new_Formula (GeneralOptions {|
    o_inputs := [value];
    o_evaluate := Decimal_fn "lngamma";
    o_invert := None;
    o_integrate := None;
    o_integrateInner := None;
    o_applySubstitution := None;
    o_invertIntegral := None;
    o_hasVariable := None |}).

Definition Formula_exp (value : FormulaSource) : Result Formula :=
  new_Formula (GeneralOptions {|
    o_inputs := [value];
    o_evaluate := Decimal_fn "exp";
    o_invert := Some (ops_fn "invertExp");
    o_integrate := Some (ops_fn "integrateExp");
    o_integrateInner := None;
    o_applySubstitution := None;
    o_invertIntegral := None;
    o_hasVariable := None |}).

Definition Formula_layeradd10 (value diff : FormulaSource) : Result Formula :=
  new_Formula (GeneralOptions {|
    o_inputs := [value; diff];
    o_evaluate := Decimal_fn "layeradd10";
    o_invert := None;
    o_integrate := None;
    o_integrateInner := None;
    o_applySubstitution := None;
    o_invertIntegral := None;
    o_hasVariable := None |}).

Definition Formula_lambertw (value : FormulaSource) : Result Formula :=
  new_Formula (GeneralOptions {|
    o_inputs := [value];
    o_evaluate := Decimal_fn "lambertw";
    o_invert := Some (ops_fn "invertLambertw");
    o_integrate := None;
    o_integrateInner := None;
    o_applySubstitution := None;
    o_invertIntegral := None;
    o_hasVariable := None |}).

Definition Formula_ssqrt (value : FormulaSource) : Result Formula :=
  new_Formula (GeneralOptions {|
    o_inputs := [value];
    o_evaluate := Decimal_fn "ssqrt";
    o_invert := Some (ops_fn "invertSsqrt");
    o_integrate := None;
    o_integrateInner := None;
    o_applySubstitution := None;
    o_invertIntegral := None;
    o_hasVariable := None |}).

Definition Formula_sin (value : FormulaSource) : Result Formula :=
  new_Formula (GeneralOptions {|
    o_inputs := [value];
    o_evaluate := Decimal_fn "sin";
    o_invert := Some (ops_fn "invertAsin");
    o_integrate := Some (ops_fn "integrateSin");
    o_integrateInner := None;
    o_applySubstitution := None;
    o_invertIntegral := None;
    o_hasVariable := None |}).

Definition Formula_cos (value : FormulaSource) : Result Formula :=
  new_Formula (GeneralOptions {|
    o_inputs := [value];
    o_evaluate := Decimal_fn "cos";
    o_invert := Some (ops_fn "invertAcos");
    o_integrate := Some (ops_fn "integrateCos");
    o_integrateInner := None;
    o_applySubstitution := None;
    o_invertIntegral := None;
    o_hasVariable := None |}).

Definition Formula_tan (value : FormulaSource) : Result Formula :=
  new_Formula (GeneralOptions {|
    o_inputs := [value];
    o_evaluate := Decimal_fn "tan";
    o_invert := Some (ops_fn "invertAtan");
    o_integrate := Some (ops_fn "integrateTan");
    o_integrateInner := None;
    o_applySubstitution := None;
    o_invertIntegral := None;
    o_hasVariable := None |}).

Definition Formula_asin (value : FormulaSource) : Result Formula :=
  new_Formula (GeneralOptions {|
    o_inputs := [value];
    o_evaluate := Decimal_fn "asin";
    o_invert := Some (ops_fn "invertSin");
    o_integrate := Some (ops_fn "integrateAsin");
    o_integrateInner := None;
    o_applySubstitution := None;
    o_invertIntegral := None;
    o_hasVariable := None |}).

Definition Formula_acos (value : FormulaSource) : Result Formula :=
  new_Formula (GeneralOptions {|
    o_inputs := [value];
    o_evaluate := Decimal_fn "acos";
    o_invert := Some (ops_fn "invertCos");
    o_integrate := Some (ops_fn "integrateAcos");
    o_integrateInner := None;
    o_applySubstitution := None;
    o_invertIntegral := None;
    o_hasVariable := None |}).

Definition Formula_atan (value : FormulaSource) : Result Formula :=
  new_Formula (GeneralOptions {|
    o_inputs := [value];
    o_evaluate := Decimal_fn "atan";
    o_invert := Some (ops_fn "invertTan");
    o_integrate := Some (ops_fn "integrateAtan");
    o_integrateInner := None;
    o_applySubstitution := None;
    o_invertIntegral := None;
    o_hasVariable := None |}).

Definition Formula_sinh (value : FormulaSource) : Result Formula :=
  new_Formula (GeneralOptions {|
    o_inputs := [value];
    o_evaluate := Decimal_fn "sinh";
    o_invert := Some (ops_fn "invertAsinh");
    o_integrate := Some (ops_fn "integrateSinh");
    o_integrateInner := None;
    o_applySubstitution := None;
    o_invertIntegral := None;
    o_hasVariable := None |}).

Definition Formula_cosh (value : FormulaSource) : Result Formula :=
  new_Formula (GeneralOptions {|
    o_inputs := [value];
    o_evaluate := Decimal_fn "cosh";
    o_invert := Some (ops_fn "invertAcosh");
    o_integrate := Some (ops_fn "integrateCosh");
    o_integrateInner := None;
    o_applySubstitution := None;
    o_invertIntegral := None;
    o_hasVariable := None |}).

Definition Formula_tanh (value : FormulaSource) : Result Formula :=
  new_Formula (GeneralOptions {|
    o_inputs := [value];
    o_evaluate := Decimal_fn "tanh";
    o_invert := Some (ops_fn "invertAtanh");
    o_integrate := Some (ops_fn "integrateTanh");
    o_integrateInner := None;
    o_applySubstitution := None;
    o_invertIntegral := None;
    o_hasVariable := None |}).

Definition Formula_asinh (value : FormulaSource) : Result Formula :=
  new_Formula (GeneralOptions {|
    o_inputs := [value];
    o_evaluate := Decimal_fn "asinh";
    o_invert := Some (ops_fn "invertSinh");
    o_integrate := Some (ops_fn "integrateAsinh");
    o_integrateInner := None;
    o_applySubstitution := None;
    o_invertIntegral := None;
    o_hasVariable := None |}).

Definition Formula_acosh (value : FormulaSource) : Result Formula :=
  new_Formula (GeneralOptions {|
    o_inputs := [value];
    o_evaluate := Decimal_fn "acosh";
    o_invert := Some (ops_fn "invertCosh");
    o_integrate := Some (ops_fn "integrateAcosh");
    o_integrateInner := None;
    o_applySubstitution := None;
    o_invertIntegral := None;
    o_hasVariable := None |}).

Definition Formula_atanh (value : FormulaSource) : Result Formula :=
  new_Formula (GeneralOptions {|
    o_inputs := [value];
    o_evaluate := Decimal_fn "atanh";
    o_invert := Some (ops_fn "invertTanh");
    o_integrate := Some (ops_fn "integrateAtanh");
    o_integrateInner := None;
    o_applySubstitution := None;
    o_invertIntegral := None;
    o_hasVariable := None |}).

(** [Decimal.fromComponents_noNormalize(1, 0, 1)], a constant of the
    numeric type, the default payload of three factories. *)
Variable fromComponents_1_0_1 : D.

Definition Formula_tetrate (value : FormulaSource) (height payload : option FormulaSource) : Result Formula :=
  let height := match height with Some s => s | None => FSValue (PCValue (d_ofZ dec 2)) end in
  let payload := match payload with Some s => s | None => FSValue (PCValue (fromComponents_1_0_1)) end in
  new_Formula (GeneralOptions {|
    o_inputs := [value; height; payload];
    o_evaluate := ops_fn "tetrate";
    o_invert := Some (ops_fn "invertTetrate");
    o_integrate := None;
    o_integrateInner := None;
    o_applySubstitution := None;
    o_invertIntegral := None;
    o_hasVariable := None |}).

Definition Formula_iteratedexp (value : FormulaSource) (height payload : option FormulaSource) : Result Formula :=
  let height := match height with Some s => s | None => FSValue (PCValue (d_ofZ dec 2)) end in
  let payload := match payload with Some s => s | None => FSValue (PCValue (fromComponents_1_0_1)) end in
  new_Formula (GeneralOptions {|
    o_inputs := [value; height; payload];
    o_evaluate := ops_fn "iteratedexp";
    o_invert := Some (ops_fn "invertIteratedExp");
    o_integrate := None;
    o_integrateInner := None;
    o_applySubstitution := None;
    o_invertIntegral := None;
    o_hasVariable := None |}).

Definition Formula_iteratedlog (value : FormulaSource) (base times : option FormulaSource) : Result Formula :=
  let base := match base with Some s => s | None => FSValue (PCValue (d_ofZ dec 10)) end in
  let times := match times with Some s => s | None => FSValue (PCValue (d_ofZ dec 1)) end in
  new_Formula (GeneralOptions {|
    o_inputs := [value; base; times];
    o_evaluate := ops_fn "iteratedLog";
    o_invert := None;
    o_integrate := None;
    o_integrateInner := None;
    o_applySubstitution := None;
    o_invertIntegral := None;
    o_hasVariable := None |}).

Definition Formula_slog (value : FormulaSource) (base : option FormulaSource) : Result Formula :=
  let base := match base with Some s => s | None => FSValue (PCValue (d_ofZ dec 10)) end in
  new_Formula (GeneralOptions {|
    o_inputs := [value; base];
    o_evaluate := ops_fn "slog";
    o_invert := Some (ops_fn "invertSlog");
    o_integrate := None;
    o_integrateInner := None;
    o_applySubstitution := None;
    o_invertIntegral := None;
    o_hasVariable := None |}).

Definition Formula_layeradd (value diff : FormulaSource) (base : option FormulaSource) : Result Formula :=
  let base := match base with Some s => s | None => FSValue (PCValue (d_ofZ dec 10)) end in
  new_Formula (GeneralOptions {|
    o_inputs := [value; diff; base];
    o_evaluate := ops_fn "layeradd";
    o_invert := Some (ops_fn "invertLayeradd");
    o_integrate := None;
    o_integrateInner := None;
    o_applySubstitution := None;
    o_invertIntegral := None;
    o_hasVariable := None |}).

Definition Formula_pentate (value : FormulaSource) (height payload : option FormulaSource) : Result Formula :=
  let height := match height with Some s => s | None => FSValue (PCValue (d_ofZ dec 2)) end in
  let payload := match payload with Some s => s | None => FSValue (PCValue (fromComponents_1_0_1)) end in
  new_Formula (GeneralOptions {|
    o_inputs := [value; height; payload];
    o_evaluate := ops_fn "pentate";
    o_invert := None;
    o_integrate := None;
    o_integrateInner := None;
    o_applySubstitution := None;
    o_invertIntegral := None;
    o_hasVariable := None |}).

(** The factories by number of inputs and by the part they play in
    integration: the linear ones carry an apply-substitution callback,
    the complex ones do not, with or without an integrate callback. *)
Definition unary_linear : list (FormulaSource -> Result Formula) :=
  [Formula_neg].

Definition unary_complex_integrate : list (FormulaSource -> Result Formula) :=
  [Formula_recip;
   Formula_log10;
   Formula_log2;
   Formula_ln;
   Formula_pow10;
   Formula_exp;
   Formula_sin;
   Formula_cos;
   Formula_tan;
   Formula_asin;
   Formula_acos;
   Formula_atan;
   Formula_sinh;
   Formula_cosh;
   Formula_tanh;
   Formula_asinh;
   Formula_acosh;
   Formula_atanh].

Definition unary_complex_plain : list (FormulaSource -> Result Formula) :=
  [Formula_abs;
   Formula_sign;
   Formula_round;
   Formula_floor;
   Formula_ceil;
   Formula_trunc;
   Formula_pLog10;
   Formula_absLog10;
   Formula_factorial;
   Formula_gamma;
   Formula_lngamma;
   Formula_lambertw;
   Formula_ssqrt].

Definition binary_linear : list (FormulaSource -> FormulaSource -> Result Formula) :=
  [Formula_add;
   Formula_sub;
   Formula_mul;
   Formula_div].

Definition binary_complex_integrate
  : list (FormulaSource -> FormulaSource -> Result Formula) :=
  [Formula_log;
   Formula_pow;
   Formula_pow_base;
   Formula_root].

Definition binary_complex_plain
  : list (FormulaSource -> FormulaSource -> Result Formula) :=
  [Formula_max;
   (fun value base => Formula_slog value (Some base));
   Formula_layeradd10].

Definition ternary_complex_plain
  : list (FormulaSource -> FormulaSource -> FormulaSource -> Result Formula) :=
  [Formula_clamp;
   (fun value height payload => Formula_tetrate value (Some height) (Some payload));
   (fun value height payload => Formula_iteratedexp value (Some height) (Some payload));
   (fun value base times => Formula_iteratedlog value (Some base) (Some times));
   (fun value diff base => Formula_layeradd value diff (Some base));
   (fun value height payload => Formula_pentate value (Some height) (Some payload))].

(** ** [Formula.if]

    The condition is read from the state at each call.  The two
    closures of [if] bear the names of those of [step] in the source. *)

Definition if_evalStep (lhsRef : nat) (formula : Formula)
    (processedCondition : Heap -> bool) (lhs : D) : M (option D) :=
  fun h =>
    if processedCondition h then
      (_ <- writeCell lhsRef lhs ;;
       evaluate formula None) h
    else ret (Some lhs) h.

Definition if_invertStep (formula : Formula) (processedCondition : Heap -> bool)
    (value : D) (lhs : FormulaSource) : M D :=
  match lhs with
  | FSFormula l =>
      if Formula_hasVariable l then
        fun h =>
          if processedCondition h then
            (inner <- invert formula value ;;
             invert l inner) h
          else invert l value h
      else throw "Could not invert due to no input being a variable"
  | FSValue _ => throw "Could not invert due to no input being a variable"
  end.

Definition Formula_if (value : FormulaSource) (condition : Heap -> bool)
    (formulaModifier : Formula -> M Formula) : M Formula :=
  lhsRef <- newCell (d_ofZ dec 0) ;;
  variable <- lift (Formula_variable (PCRef lhsRef)) ;;
  formula <- formulaModifier variable ;;
  lift (new_Formula (GeneralOptions {|
    o_inputs := [value];
    o_evaluate := closure_fn "evalStep" lhsRef;
    o_invert :=
      if isInvertible formula && Formula_hasVariable formula
      then Some (closure_fn "invertStep" lhsRef) else None;
    o_integrate := None;
    o_integrateInner := None;
    o_applySubstitution := None;
    o_invertIntegral := None;
    o_hasVariable := None |})).

Definition Formula_conditional (value : FormulaSource) (condition : Heap -> bool)
    (formulaModifier : Formula -> M Formula) : M Formula :=
  Formula_if value condition formulaModifier.

(** ** Trees that came out of the constructor *)

(** Every node of the tree was returned by [new Formula]. *)
Inductive Built : Formula -> Prop :=
| Built_node (options : FormulaOptions) (f : Formula) :
    new_Formula options = Ok f ->
    (forall g, In (FSFormula g) (inputs f) -> Built g) ->
    Built f.

(** The leaf reached by following first inputs. *)
Fixpoint leftmostLeaf (f : Formula) : option ProcessedComputable :=
  match inputs f with
  | [] => None
  | FSValue v :: _ => Some v
  | FSFormula g :: _ => leftmostLeaf g
  end.

(** The innermost variable of the input that [setupFormula] finds. *)
Definition foundInnermost (inputs : list FormulaSource) : option ProcessedComputable :=
  match findVariable inputs with
  | Some v => innermostVariable v
  | None => None
  end.

(** The tree holds the variable leaf on [x], below inputs that have the
    variable. *)
Inductive HoldsVariable : Formula -> ProcessedComputable -> Prop :=
| HoldsVariable_leaf (x : ProcessedComputable) :
    HoldsVariable (variableNode x) x
| HoldsVariable_input (f g : Formula) (x : ProcessedComputable) :
    In (FSFormula g) (inputs f) ->
    Formula_hasVariable g = true ->
    HoldsVariable g x ->
    HoldsVariable f x.

End Model.

Arguments FSValue {D F} v.
Arguments FSFormula {D F} f.

(** ** Concrete formulas over the integers *)

Module OnIntegers.

(** Two variables, backed by the cells 0 and 1. *)
Definition x : @FormulaSource Z := FSFormula (variableNode (PCRef 0)).
Definition y : @FormulaSource Z := FSFormula (variableNode (PCRef 1)).

(** The options that [Formula.add(x, y)] hands to the constructor. *)
Definition add_x_y : @GeneralFormulaOptions Z := {|
  o_inputs := [x; y];
  o_evaluate := Decimal_fn "add";
  o_invert := Some (ops_fn "invertAdd");
  o_integrate := Some (ops_fn "integrateAdd");
  o_integrateInner := Some (ops_fn "integrateInnerAdd");
  o_applySubstitution := Some (ops_fn "passthrough");
  o_invertIntegral := Some (ops_fn "invertIntegrateAdd");
  o_hasVariable := None |}.

(** The options that [Formula.add(x, 1)] hands to the constructor. *)
Definition add_x_1 : @GeneralFormulaOptions Z := {|
  o_inputs := [x; FSValue (PCValue 1%Z)];
  o_evaluate := Decimal_fn "add";
  o_invert := Some (ops_fn "invertAdd");
  o_integrate := Some (ops_fn "integrateAdd");
  o_integrateInner := Some (ops_fn "integrateInnerAdd");
  o_applySubstitution := Some (ops_fn "passthrough");
  o_invertIntegral := Some (ops_fn "invertIntegrateAdd");
  o_hasVariable := None |}.

(** The node that [Formula.pow(x, 2)] builds. *)
Definition pow_x_2 : @Formula Z := {|
  inputs := [x; FSValue (PCValue 2%Z)];
  internalEvaluate := None;
  internalInvert := None;
  internalIntegrate := Some (ops_fn "integratePow");
  internalIntegrateInner := None;
  applySubstitution := None;
  internalInvertIntegral := None;
  internalHasVariable := true;
  innermostVariable := Some (PCRef 0)
|}.

End OnIntegers.

Module MoreOnIntegers.

(** The node that [Formula.add(x, 1)] builds, [x] on cell 0. *)
Definition add_x_1_node : @Formula Z := {|
  inputs := [OnIntegers.x; FSValue (PCValue 1%Z)];
  internalEvaluate := None;
  internalInvert := None;
  internalIntegrate := Some (ops_fn "integrateAdd");
  internalIntegrateInner := Some (ops_fn "integrateInnerAdd");
  applySubstitution := Some (ops_fn "passthrough");
  internalInvertIntegral := None;
  internalHasVariable := true;
  innermostVariable := Some (PCRef 0)
|}.

(** The variable leaf on cell 0. *)
Definition x_leaf : @Formula Z := variableNode (PCRef 0).

(** The options that [Formula.neg(x)] hands to the constructor, and
    the same options but for the apply-substitution callback. *)
Definition neg_x : @GeneralFormulaOptions Z := {|
  o_inputs := [OnIntegers.x];
  o_evaluate := Decimal_fn "neg";
  o_invert := Some (ops_fn "invertNeg");
  o_integrate := Some (ops_fn "integrateNeg");
  o_integrateInner := None;
  o_applySubstitution := Some (ops_fn "applySubstitutionNeg");
  o_invertIntegral := None;
  o_hasVariable := None |}.

Definition neg_x_passthrough : @GeneralFormulaOptions Z := {|
  o_inputs := [OnIntegers.x];
  o_evaluate := Decimal_fn "neg";
  o_invert := Some (ops_fn "invertNeg");
  o_integrate := Some (ops_fn "integrateNeg");
  o_integrateInner := None;
  o_applySubstitution := Some (ops_fn "passthrough");
  o_invertIntegral := None;
  o_hasVariable := None |}.

End MoreOnIntegers.

(** * Properties *)

Unset Implicit Arguments.

Section Properties.

Context {D : Type} (dec : DecimalOps D) (reg : @Registry D).

Implicit Types (this f g : @Formula D) (h : @Heap D) (variable : option D).

(** ** Construction *)

Lemma Formula_variable_node (x : @ProcessedComputable D) :
  Formula_variable x = Ok (variableNode x).
Proof. reflexivity. Qed.

Lemma new_Formula_general (options : @GeneralFormulaOptions D) f :
  new_Formula (GeneralOptions options) = Ok f ->
  exists p, setupFormula options = Ok p /\
    f = {| inputs := p_inputs p;
           internalEvaluate := None;
           internalInvert := None;
           internalIntegrate := p_internalIntegrate p;
           internalIntegrateInner := p_internalIntegrateInner p;
           applySubstitution := p_applySubstitution p;
           internalInvertIntegral := None;
           internalHasVariable := p_internalHasVariable p;
           innermostVariable := p_innermostVariable p |}.
Proof.
  unfold new_Formula. destruct (setupFormula options) as [p|msg]; simpl.
  - intros E. injection E as <-. exists p. split; reflexivity.
  - discriminate.
Qed.

(** Whatever the options, a constructed node holds none of the three
    callbacks. *)
Lemma new_Formula_callbacks (options : @FormulaOptions D) f :
  new_Formula options = Ok f ->
  internalEvaluate f = None /\ internalInvert f = None /\
  internalInvertIntegral f = None.
Proof.
  unfold new_Formula, rbind.
  destruct options as [v|i|o];
    [ | destruct (setupConstant i) | destruct (setupFormula o) ];
    try discriminate; intros E; injection E as <-; auto.
Qed.

(** ** Unfolding [evaluate] and [invert] on a node without callbacks *)

Lemma evaluate_without_callback this variable :
  internalEvaluate this = None ->
  evaluate reg this variable =
    match (if internalHasVariable this then variable else None) with
    | Some v => ret (Some v)
    | None => unrefFormulaSource reg (hd_error (inputs this)) None
    end.
Proof.
  destruct this as [ins ev inv int inti sub invint hv innermost]; simpl.
  intros ->. destruct (if hv then variable else None); [reflexivity|].
  destruct ins as [|[a|a] ins']; reflexivity.
Qed.

Lemma invert_without_callback this (value : D) :
  internalInvert this = None ->
  invert reg this value =
    if Nat.eqb (List.length (inputs this)) 1 && internalHasVariable this
    then ret value else throw "Cannot invert non-invertible formula".
Proof. unfold invert. intros ->. reflexivity. Qed.

Lemma invert_many_inputs this (value : D) h :
  internalInvert this = None -> 1 < List.length (inputs this) ->
  invert reg this value h = Throw "Cannot invert non-invertible formula".
Proof.
  intros E L. rewrite (invert_without_callback _ _ E).
  destruct (Nat.eqb_spec (List.length (inputs this)) 1) as [E1|_]; [lia|reflexivity].
Qed.

(** C1. An operation node comes out of the constructor without its
    evaluate, invert and invert-integral callbacks, although
    [setupFormula] returned the evaluate callback of the options.
    Hence, for any registry, [evaluate] returns the override when the
    node has the variable and an override is given, and the value of
    the first input (read without override) otherwise; and [invert]
    throws as soon as the node has more than one input. *)
Theorem operation_node_loses_callbacks (options : @GeneralFormulaOptions D) f :
  new_Formula (GeneralOptions options) = Ok f ->
  (exists p, setupFormula options = Ok p /\
             p_internalEvaluate p = Some (o_evaluate options)) /\
  inputs f = o_inputs options /\
  internalEvaluate f = None /\
  internalInvert f = None /\
  internalInvertIntegral f = None /\
  (forall variable h,
     evaluate reg f variable h =
       match (if Formula_hasVariable f then variable else None) with
       | Some v => Ok (Some v, h)
       | None => unrefFormulaSource reg (hd_error (inputs f)) None h
       end) /\
  (1 < List.length (inputs f) ->
   forall (value : D) h,
     invert reg f value h = Throw "Cannot invert non-invertible formula").
Proof.
  intros E.
  destruct (new_Formula_callbacks _ _ E) as (Eev & Einv & Eint).
  destruct (new_Formula_general _ _ E) as (p & Ep & Ef).
  assert (Hp : p_internalEvaluate p = Some (o_evaluate options) /\
               p_inputs p = o_inputs options).
  { unfold setupFormula in Ep.
    destruct (_ && _ && _) in Ep; [discriminate|]. injection Ep as <-.
    split; reflexivity. }
  split; [exists p; split; [exact Ep|apply Hp]|].
  repeat split; auto.
  - rewrite Ef. simpl. apply Hp.
  - intros variable h. rewrite (evaluate_without_callback _ _ Eev).
    unfold Formula_hasVariable.
    destruct (if internalHasVariable f then variable else None); reflexivity.
  - intros L value h. apply invert_many_inputs; assumption.
Qed.

(** ** The capability predicates on constructed nodes *)

Lemma constructed_isInvertible (options : @FormulaOptions D) f :
  new_Formula options = Ok f -> isInvertible f = Formula_hasVariable f.
Proof.
  intros E. destruct (new_Formula_callbacks _ _ E) as (Eev & Einv & _).
  unfold isInvertible, Formula_hasVariable. rewrite Eev, Einv. simpl.
  apply andb_true_r.
Qed.

Lemma constructed_isIntegralInvertible (options : @FormulaOptions D) f :
  new_Formula options = Ok f -> isIntegralInvertible f = Formula_hasVariable f.
Proof.
  intros E. destruct (new_Formula_callbacks _ _ E) as (Eev & _ & Eint).
  unfold isIntegralInvertible, Formula_hasVariable. rewrite Eev, Eint. simpl.
  apply andb_true_r.
Qed.

(** On a constructed node [invert] throws exactly when the node is not
    a one-input node with the variable. *)
Lemma constructed_invert (options : @FormulaOptions D) f (value : D) h :
  new_Formula options = Ok f ->
  invert reg f value h =
    if Nat.eqb (List.length (inputs f)) 1 && Formula_hasVariable f
    then Ok (value, h) else Throw "Cannot invert non-invertible formula".
Proof.
  intros E. destruct (new_Formula_callbacks _ _ E) as (_ & Einv & _).
  rewrite (invert_without_callback _ _ Einv). unfold Formula_hasVariable.
  destruct (_ && _); reflexivity.
Qed.

(** The half of the capability contract that the code keeps: without
    the capability, [invert] throws. *)
Lemma not_invertible_throws (options : @FormulaOptions D) f (value : D) h :
  new_Formula options = Ok f -> isInvertible f = false ->
  invert reg f value h = Throw "Cannot invert non-invertible formula".
Proof.
  intros E N. rewrite (constructed_invert _ _ value h E).
  rewrite (constructed_isInvertible _ _ E) in N. rewrite N, andb_false_r. reflexivity.
Qed.

(** ** The documented scenarios, run on the code *)

(** C2. [variable(x).add(1).pow(2)]: the node is built and reports
    itself invertible, yet evaluating with override 3 returns the
    override 3, not 16, and [invert(16)] throws. *)
Theorem add_pow_scenario_on_code (x : @ProcessedComputable D) h :
  exists f,
    scenario_add_pow dec x = Ok f /\
    isInvertible f = true /\
    evaluate reg f (Some (d_ofZ dec 3)) h = Ok (Some (d_ofZ dec 3), h) /\
    invert reg f (d_ofZ dec 16) h = Throw "Cannot invert non-invertible formula".
Proof.
  eexists. split; [cbv; reflexivity|]. repeat split; cbv; reflexivity.
Qed.

(** C3. [variable(x).add(1)] has [isInvertible() = true], and [invert]
    throws on it for every value: checking the predicate first does not
    keep the caller from the fault. *)
Theorem invertible_yet_invert_throws (x : @ProcessedComputable D) :
  exists f,
    scenario_add dec x = Ok f /\
    isInvertible f = true /\
    forall (value : D) h,
      invert reg f value h = Throw "Cannot invert non-invertible formula".
Proof.
  eexists. split; [cbv; reflexivity|]. split; [cbv; reflexivity|].
  intros value h. cbv. reflexivity.
Qed.

(** C8. [variable(x).mul(2)] has [isInvertible() = true]; both round
    trips throw on it for every value, and [evaluate] returns the
    override itself instead of its double. *)
Theorem round_trip_on_code (x : @ProcessedComputable D) :
  exists f,
    scenario_mul dec x = Ok f /\
    isInvertible f = true /\
    (forall (v : D) h,
       evaluate_of_invert reg f v h = Throw "Cannot invert non-invertible formula") /\
    (forall (v : D) h,
       invert_of_evaluate dec reg f v h = Throw "Cannot invert non-invertible formula") /\
    (forall (v : D) h, evaluate reg f (Some v) h = Ok (Some v, h)).
Proof.
  eexists. split; [cbv; reflexivity|]. repeat split; cbv; reflexivity.
Qed.

(** C9. [step(variable(x), 150, v => v.mul(2))]: building it allocates
    one cell holding 0.  On the node, [evaluate] returns the override
    whatever it is (100 at 100, but 200 at 200, not 250), reads the
    variable itself when there is no override, and [invert(250)] returns
    250, not 200. *)
Theorem step_scenario_on_code (x : @ProcessedComputable D) h :
  exists f,
    scenario_step dec x h = Ok (f, h ++ [d_ofZ dec 0]) /\
    forall h',
      evaluate reg f (Some (d_ofZ dec 100)) h' = Ok (Some (d_ofZ dec 100), h') /\
      evaluate reg f (Some (d_ofZ dec 200)) h' = Ok (Some (d_ofZ dec 200), h') /\
      evaluate reg f None h' = Ok (unrefIn h' x, h') /\
      invert reg f (d_ofZ dec 250) h' = Ok (d_ofZ dec 250, h').
Proof.
  eexists. split; [cbv; reflexivity|]. intros h'. repeat split; cbv; reflexivity.
Qed.

(** ** Several variable-bearing inputs *)

(** C4, as the code has it.  With more than one variable-bearing input
    the only check of [setupFormula] is the one on the explicit flag;
    when it passes, the node is built, without the variable: it has no
    innermost variable and none of the three capabilities. *)
Theorem several_variable_inputs_accepted (options : @GeneralFormulaOptions D) :
  1 < numVariables (o_inputs options) ->
  if marked_without_inverse options then
    new_Formula (GeneralOptions options) =
      Throw "A formula cannot be marked as having a variable if it is not invertible"
  else
    exists f,
      new_Formula (GeneralOptions options) = Ok f /\
      inputs f = o_inputs options /\
      Formula_hasVariable f = false /\
      innermostVariable f = None /\
      isInvertible f = false /\
      isIntegrable f = false /\
      isIntegralInvertible f = false.
Proof.
  intros L. unfold new_Formula, setupFormula, marked_without_inverse.
  destruct (_ && _ && _); [reflexivity|].
  destruct (Nat.eqb_spec (numVariables (o_inputs options)) 1) as [E1|_]; [lia|].
  destruct (Nat.eqb_spec (numVariables (o_inputs options)) 0) as [E0|_]; [lia|].
  simpl. eexists. repeat split.
Qed.

(** ** Integration *)

(** C5. In the inner part of the walk (a stack is present), a node
    without apply-substitution callback makes [evaluateIntegral] throw,
    whatever the override, the stack and the registry. *)
Theorem inner_walk_rejects_complex_node this variable
    (stack : @SubstitutionStack D) h :
  applySubstitution this = None ->
  evaluateIntegral dec reg this variable (Some stack) h =
    Throw "Cannot have two complex operations in an integrable formula".
Proof.
  intros E. unfold evaluateIntegral. rewrite E. reflexivity.
Qed.

(** The outer part of the walk opens a fresh, empty stack at the
    complex node and applies the entries that the integrate callback
    leaves on it, in order. *)
Lemma outer_walk_opens_stack this variable (callback : Callback) h :
  applySubstitution this = None ->
  internalIntegrate this = Some callback ->
  evaluateIntegral dec reg this variable None h =
    match runIntegrate dec reg callback this variable (Some []) (inputs this) h with
    | Ok ((value, stack), h1) =>
        match applyStack reg (match stack with Some s => s | None => [] end) value h1 with
        | Ok (value', h2) => Ok ((value', None), h2)
        | Throw msg => Throw msg
        end
    | Throw msg => Throw msg
    end.
Proof.
  intros Es Ei. unfold evaluateIntegral. rewrite Es, Ei. unfold bind.
  destruct (runIntegrate dec reg callback this variable (Some []) (inputs this) h)
    as [[[value stack] h1]|msg]; [|reflexivity].
  destruct (applyStack reg _ value h1) as [[value' h2]|msg]; reflexivity.
Qed.

(** Hence two complex operations in one chain fail: when the integrate
    callback of a complex node walks into an input that is complex as
    well, handing it the stack it was given, the whole call throws. *)
Lemma two_complex_operations_fail this (inner : @Formula D) variable
    (callback : Callback) h
    (k : option D * option (@SubstitutionStack D) ->
         M (option D * option (@SubstitutionStack D))) :
  applySubstitution this = None ->
  internalIntegrate this = Some callback ->
  applySubstitution inner = None ->
  runIntegrate dec reg callback this variable (Some []) (inputs this) h =
    bind (evaluateIntegral dec reg inner variable (Some [])) k h ->
  evaluateIntegral dec reg this variable None h =
    Throw "Cannot have two complex operations in an integrable formula".
Proof.
  intros Es Ei En Ek.
  rewrite (outer_walk_opens_stack this variable callback h Es Ei), Ek.
  unfold bind, evaluateIntegral. rewrite En. reflexivity.
Qed.

(** ** Purchase utilities *)

(** C6. [calculateMaxAffordable]: with [spendResources] it throws
    unless the formula is integrable and integral-invertible, and
    otherwise returns [floor(invertIntegral(balance + evaluateIntegral()))]
    minus the current value of the innermost variable (0 when there is
    none); without [spendResources] it throws unless the formula is
    invertible, and otherwise returns [floor(invert(balance))].  A throw
    of one of the calls is a throw of the utility. *)
Theorem calculateMaxAffordable_spec (formula : @Formula D) (resource : @Resource D) h :
  calculateMaxAffordable dec reg formula resource true h =
    (if isIntegrable formula && isIntegralInvertible formula then
       match evaluateIntegral dec reg formula None None h with
       | Ok ((integral, _), h1) =>
           match invertIntegral reg formula
                   (d_add dec (Resource_value resource) (toDecimal dec integral)) h1 with
           | Ok (x, h2) =>
               Ok (d_sub dec (d_floor dec x) (currentVariable dec formula h2), h2)
           | Throw msg => Throw msg
           end
       | Throw msg => Throw msg
       end
     else
       Throw "Cannot calculate max affordable of formula with non-invertible integral") /\
  calculateMaxAffordable dec reg formula resource false h =
    (if isInvertible formula then
       match invert reg formula (Resource_value resource) h with
       | Ok (x, h1) => Ok (d_floor dec x, h1)
       | Throw msg => Throw msg
       end
     else Throw "Cannot calculate max affordable of non-invertible formula").
Proof.
  unfold calculateMaxAffordable, currentVariable. split.
  - destruct (isIntegrable formula), (isIntegralInvertible formula);
      cbn [negb orb andb]; try reflexivity.
    unfold bind.
    destruct (evaluateIntegral dec reg formula None None h)
      as [[[integral stack] h1]|msg]; [|reflexivity].
    destruct (invertIntegral reg formula _ h1) as [[x h2]|msg]; [|reflexivity].
    destruct (innermostVariable formula) as [cell|]; reflexivity.
  - destruct (isInvertible formula); cbn [negb]; [|reflexivity].
    unfold bind. destruct (invert reg formula _ h) as [[x h1]|msg]; reflexivity.
Qed.

(** [calculateCost] as the calls it is made of: with [spendResources],
    [evaluateIntegral(amountToBuy + current)] minus the integral called
    without override; without, [evaluate(amountToBuy + current)]. *)
Theorem calculateCost_spec (formula : @Formula D) (amountToBuy : D) h :
  let newValue := d_add dec amountToBuy (currentVariable dec formula h) in
  calculateCost dec reg formula amountToBuy true h =
    match evaluateIntegral dec reg formula (Some newValue) None h with
    | Ok ((upper, _), h1) =>
        match evaluateIntegral dec reg formula None None h1 with
        | Ok ((lower, _), h2) =>
            Ok (Some (d_sub dec (toDecimal dec upper) (toDecimal dec lower)), h2)
        | Throw msg => Throw msg
        end
    | Throw msg => Throw msg
    end /\
  calculateCost dec reg formula amountToBuy false h =
    evaluate reg formula (Some newValue) h.
Proof.
  unfold calculateCost, currentVariable, bind, unrefOpt, unref, ret.
  destruct (innermostVariable formula) as [cell|]; cbv beta iota; split; try reflexivity.
  - destruct (evaluateIntegral dec reg formula (Some _) None h)
      as [[[upper s1] h1]|msg]; [|reflexivity].
    destruct (evaluateIntegral dec reg formula None None h1)
      as [[[lower s2] h2]|msg]; reflexivity.
  - destruct (evaluateIntegral dec reg formula (Some _) None h)
      as [[[upper s1] h1]|msg]; [|reflexivity].
    destruct (evaluateIntegral dec reg formula None None h1)
      as [[[lower s2] h2]|msg]; reflexivity.
Qed.

(** C7. On a bare variable leaf, the integral at a value [v] is
    [integrateVariable(v)], in particular at the current value of the
    variable; but the integral called without override is
    [integrateVariable] of an absent argument, and that is what
    [calculateCost] with [spendResources] subtracts.  So the cost is
    the integral at [amountToBuy + current] minus a number that does
    not depend on the current value, not the definite integral over the
    purchase range.  Without [spendResources] the cost is
    [amountToBuy + current], the override that [evaluate] returns. *)
Theorem calculateCost_lower_bound_on_code (x : @ProcessedComputable D)
    (amountToBuy : D) h :
  let current := currentVariable dec (variableNode x) h in
  let newValue := d_add dec amountToBuy current in
  (forall v : D,
     evaluateIntegral dec reg (variableNode x) (Some v) None h =
       Ok ((Some (integrateVariable dec (Some v)), None), h)) /\
  evaluateIntegral dec reg (variableNode x) None None h =
    Ok ((Some (integrateVariable dec None), None), h) /\
  calculateCost dec reg (variableNode x) amountToBuy true h =
    Ok (Some (d_sub dec (integrateVariable dec (Some newValue))
                (integrateVariable dec None)), h) /\
  calculateCost dec reg (variableNode x) amountToBuy false h = Ok (Some newValue, h).
Proof.
  intros current newValue. subst newValue current.
  split; [reflexivity|]. split; [reflexivity|].
  unfold calculateCost, currentVariable, bind, unrefOpt, unref, ret.
  cbn [innermostVariable variableNode].
  split; destruct (unrefIn h x); reflexivity.
Qed.

(** ** Structural equality *)

Lemma Callback_eqb_eq (a b : Callback) : Callback_eqb a b = true <-> a = b.
Proof.
  destruct a, b; simpl; split; intros E; try discriminate; try reflexivity.
  - apply String.eqb_eq in E. congruence.
  - injection E as ->. apply String.eqb_refl.
  - apply String.eqb_eq in E. congruence.
  - injection E as ->. apply String.eqb_refl.
  - apply andb_true_iff in E. destruct E as (E1 & E2).
    apply String.eqb_eq in E1. apply Nat.eqb_eq in E2. congruence.
  - injection E as -> ->. rewrite String.eqb_refl, Nat.eqb_refl. reflexivity.
Qed.

Lemma same_callback_eq (a b : option Callback) : same_callback a b = true <-> a = b.
Proof.
  destruct a as [x|], b as [y|]; simpl; split; intros E;
    try discriminate; try reflexivity.
  - apply Callback_eqb_eq in E. congruence.
  - injection E as ->. apply Callback_eqb_eq. reflexivity.
Qed.

Lemma equals_unfold h this other :
  equals dec h this other =
    Nat.eqb (List.length (inputs this)) (List.length (inputs other)) &&
    everyInput dec h (inputs this) (inputs other) 0 &&
    same_callback (internalEvaluate this) (internalEvaluate other) &&
    same_callback (internalInvert this) (internalInvert other) &&
    same_callback (internalIntegrate this) (internalIntegrate other) &&
    same_callback (internalInvertIntegral this) (internalInvertIntegral other) &&
    Bool.eqb (internalHasVariable this) (internalHasVariable other).
Proof.
  destruct this as [ins ev inv int inti sub invint hv innermost].
  cbn [equals inputs internalEvaluate internalInvert internalIntegrate
       internalInvertIntegral internalHasVariable].
  do 6 f_equal.
  generalize 0. induction ins as [|input ins' IH]; intros i; [reflexivity|].
  cbn [everyInput]. rewrite <- IH. unfold inputEquals, FormulaSource.
  destruct input as [a|a]; destruct (nth_error (inputs other) i) as [[b|b]|]; reflexivity.
Qed.

(** With as many inputs on both sides, the loop is the pairwise test. *)
Lemma everyInput_aligned h (l : list (@FormulaSource D)) :
  forall others pre,
    List.length l = List.length others ->
    (everyInput dec h l (pre ++ others) (List.length pre) = true <->
     Forall2 (fun a b => sourceEquals dec h a b = true) l others).
Proof.
  induction l as [|a l' IH]; intros [|b others'] pre L; try discriminate L.
  - split; [constructor|reflexivity].
  - cbn [everyInput]. rewrite nth_error_app2, Nat.sub_diag by lia. cbn [nth_error].
    injection L as L.
    specialize (IH others' (pre ++ [b]) L).
    rewrite <- app_assoc, length_app, Nat.add_1_r in IH. cbn [app] in IH.
    rewrite andb_true_iff, IH.
    assert (Et : inputEquals dec h a (Some b) = sourceEquals dec h a b)
      by (destruct a, b; reflexivity).
    rewrite Et. split.
    + intros (E1 & E2). constructor; assumption.
    + intros F. inversion F; subst. split; assumption.
Qed.

Lemma equals_iff h f g :
  equals dec h f g = true <->
  List.length (inputs f) = List.length (inputs g) /\
  Forall2 (fun a b => sourceEquals dec h a b = true) (inputs f) (inputs g) /\
  internalEvaluate f = internalEvaluate g /\
  internalInvert f = internalInvert g /\
  internalIntegrate f = internalIntegrate g /\
  internalInvertIntegral f = internalInvertIntegral g /\
  internalHasVariable f = internalHasVariable g.
Proof.
  rewrite equals_unfold, !andb_true_iff, !same_callback_eq, Nat.eqb_eq, Bool.eqb_true_iff.
  split.
  - intros ((((((L & E) & E1) & E2) & E3) & E4) & E5).
    apply (everyInput_aligned h _ _ [] L) in E. tauto.
  - intros (L & E & E1 & E2 & E3 & E4 & E5).
    apply (everyInput_aligned h _ _ [] L) in E. tauto.
Qed.

Lemma sourceEquals_hasVariable h (a b : @FormulaSource D) :
  sourceEquals dec h a b = true -> hasVariable a = hasVariable b.
Proof.
  destruct a as [x|x], b as [y|y]; simpl; try discriminate; try reflexivity.
  intros E. apply equals_iff in E. unfold Formula_hasVariable. tauto.
Qed.

Lemma equals_reflexive h :
  (forall x : D, d_eq dec x x = true) -> forall f, equals dec h f f = true.
Proof.
  intros R f. induction f as [ins IH ev inv int inti sub invint hv innermost].
  apply equals_iff. cbn. repeat split; try reflexivity.
  induction IH as [|input Hin ins' Hins IHins]; constructor; [|assumption].
  destruct Hin as [a Ha|v]; simpl; [assumption|apply R].
Qed.

(** What [Formula.add] builds. *)
Lemma Formula_add_node (a b : @FormulaSource D) :
  exists f,
    Formula_add a b = Ok f /\
    inputs f = [a; b] /\
    internalEvaluate f = None /\
    internalInvert f = None /\
    internalIntegrate f = Some (ops_fn "integrateAdd") /\
    internalInvertIntegral f = None /\
    internalHasVariable f = Nat.eqb (numVariables [a; b]) 1.
Proof.
  unfold Formula_add, new_Formula, setupFormula. cbn [o_invert isSome negb andb rbind].
  eexists. split; [reflexivity|]. cbn -[numVariables Nat.eqb]. repeat split.
  destruct (Nat.eqb (numVariables [a; b]) 1), (Nat.eqb (numVariables [a; b]) 0); reflexivity.
Qed.

(** C10, as the code has it.  Provided the numeric equality is
    reflexive: a formula equals itself; two sums built from pairwise
    equal inputs are equal; a sum and the sum of the swapped inputs
    differ when the two inputs do; and [equals] holds exactly when the
    two nodes have as many inputs, pairwise equal ones (formulas by
    [equals], leaves by their current numbers), the same evaluate,
    invert, integrate and invert-integral callbacks on the instance,
    and the same has-variable flag.  The integrate-inner and
    apply-substitution callbacks are not compared. *)
Theorem equals_is_structural h :
  (forall x : D, d_eq dec x x = true) ->
  (forall f, equals dec h f f = true) /\
  (forall a b a' b' : @FormulaSource D,
     sourceEquals dec h a a' = true -> sourceEquals dec h b b' = true ->
     exists f g,
       Formula_add a b = Ok f /\ Formula_add a' b' = Ok g /\ equals dec h f g = true) /\
  (forall a b : @FormulaSource D,
     sourceEquals dec h a b = false ->
     exists f g,
       Formula_add a b = Ok f /\ Formula_add b a = Ok g /\ equals dec h f g = false) /\
  (forall f g,
     equals dec h f g = true <->
     List.length (inputs f) = List.length (inputs g) /\
     Forall2 (fun a b => sourceEquals dec h a b = true) (inputs f) (inputs g) /\
     internalEvaluate f = internalEvaluate g /\
     internalInvert f = internalInvert g /\
     internalIntegrate f = internalIntegrate g /\
     internalInvertIntegral f = internalInvertIntegral g /\
     internalHasVariable f = internalHasVariable g).
Proof.
  intros R. split; [apply equals_reflexive; exact R|]. split; [|split].
  - intros a b a' b' Ea Eb.
    destruct (Formula_add_node a b) as (f & Ef & If & F1 & F2 & F3 & F4 & F5).
    destruct (Formula_add_node a' b') as (g & Eg & Ig & G1 & G2 & G3 & G4 & G5).
    exists f, g. split; [exact Ef|]. split; [exact Eg|].
    apply equals_iff. rewrite If, Ig, F1, F2, F3, F4, F5, G1, G2, G3, G4, G5.
    repeat split.
    + repeat constructor; assumption.
    + unfold numVariables. cbn [filter].
      rewrite (sourceEquals_hasVariable h a a' Ea), (sourceEquals_hasVariable h b b' Eb).
      destruct (hasVariable a'), (hasVariable b'); reflexivity.
  - intros a b N.
    destruct (Formula_add_node a b) as (f & Ef & If & _).
    destruct (Formula_add_node b a) as (g & Eg & Ig & _).
    exists f, g. split; [exact Ef|]. split; [exact Eg|].
    destruct (equals dec h f g) eqn:E; [|reflexivity].
    apply equals_iff in E. destruct E as (_ & F & _).
    rewrite If, Ig in F. inversion F; subst. congruence.
  - intros f g. apply equals_iff.
Qed.

End Properties.

(** * The model run on concrete formulas *)

Module Examples.

Import OnIntegers.

Example pow_x_2_built :
  Formula_pow x (FSValue (PCValue 2%Z)) = Ok pow_x_2.
Proof. vm_compute. reflexivity. Qed.

Example add_x_y_is_Formula_add :
  Formula_add x y = new_Formula (GeneralOptions add_x_y).
Proof. vm_compute. reflexivity. Qed.

(** A constant ignores the override. *)
Example constant_5 :
  exists f,
    Formula_constant (PCValue 5%Z) = Ok f /\
    Formula_hasVariable f = false /\
    evaluate emptyRegistry f (Some 7%Z) [] = Ok (Some 5%Z, []) /\
    evaluate emptyRegistry f None [] = Ok (Some 5%Z, []).
Proof. eexists. split; [vm_compute; reflexivity|]. repeat split. Qed.

(** The variable leaf, with 3 in its cell: evaluation, inversion, the
    outer integral with and without override (without, the leaf hands
    the absent override to [integrateVariable] and does not read its
    cell) and the inner integral. *)
Example variable_leaf :
  let v := variableNode (PCRef 0) in
  evaluate emptyRegistry v None [3%Z] = Ok (Some 3%Z, [3%Z]) /\
  evaluate emptyRegistry v (Some 8%Z) [3%Z] = Ok (Some 8%Z, [3%Z]) /\
  invert emptyRegistry v 8%Z [3%Z] = Ok (8%Z, [3%Z]) /\
  evaluateIntegral ZDecimal emptyRegistry v (Some 6%Z) None [3%Z]
    = Ok ((Some 18%Z, None), [3%Z]) /\
  evaluateIntegral ZDecimal emptyRegistry v None None [3%Z]
    = Ok ((Some 0%Z, None), [3%Z]) /\
  evaluateIntegral ZDecimal emptyRegistry v None (Some []) [3%Z]
    = Ok ((Some 3%Z, Some [v]), [3%Z]).
Proof. repeat split. Qed.

(** The utilities on the variable leaf, with 3 in its cell. *)
Example utilities_on_variable_leaf :
  let v := variableNode (PCRef 0) in
  calculateMaxAffordable ZDecimal emptyRegistry v {| Resource_value := 100%Z |} false [3%Z]
    = Ok (100%Z, [3%Z]) /\
  calculateCost ZDecimal emptyRegistry v 2%Z false [3%Z] = Ok (Some 5%Z, [3%Z]).
Proof. repeat split. Qed.

(** On the code, [abs(x)] and [floor(x)] are equal formulas: the only
    callback in which they differ is not on the instance. *)
Example abs_equals_floor :
  exists f g,
    Formula_abs x = Ok f /\ Formula_floor x = Ok g /\
    equals ZDecimal [3%Z] f g = true.
Proof.
  eexists. eexists. split; [vm_compute; reflexivity|].
  split; [vm_compute; reflexivity|]. vm_compute. reflexivity.
Qed.

(** The results of the two documented scenarios over the integers,
    against the documented ones. *)
Example add_pow_scenario_values :
  exists f,
    scenario_add_pow ZDecimal (PCRef 0) = Ok f /\
    evaluate emptyRegistry f (Some 3%Z) [0%Z] <> Ok (Some 16%Z, [0%Z]) /\
    invert emptyRegistry f 16%Z [0%Z] <> Ok (3%Z, [0%Z]).
Proof.
  eexists. split; [vm_compute; reflexivity|].
  split; intros E; vm_compute in E; discriminate E.
Qed.

Example step_scenario_values :
  exists f,
    scenario_step ZDecimal (PCRef 0) [200%Z] = Ok (f, [200%Z; 0%Z]) /\
    evaluate emptyRegistry f None [200%Z; 0%Z] = Ok (Some 200%Z, [200%Z; 0%Z]) /\
    evaluate emptyRegistry f (Some 200%Z) [200%Z; 0%Z] <> Ok (Some 250%Z, [200%Z; 0%Z]) /\
    invert emptyRegistry f 250%Z [200%Z; 0%Z] <> Ok (200%Z, [200%Z; 0%Z]).
Proof.
  eexists. split; [vm_compute; reflexivity|]. split; [vm_compute; reflexivity|].
  split; intros E; vm_compute in E; discriminate E.
Qed.

End Examples.

(** * Instances of the theorems that carry a hypothesis *)

Lemma operation_node_loses_callbacks_witness :
  exists f,
    new_Formula (GeneralOptions OnIntegers.add_x_1) = Ok f /\
    internalEvaluate f = None /\
    forall (value : Z) h,
      invert emptyRegistry f value h = Throw "Cannot invert non-invertible formula".
Proof.
  eexists. split; [vm_compute; reflexivity|].
  match goal with
  | |- internalEvaluate ?f = None /\ _ =>
      destruct (operation_node_loses_callbacks emptyRegistry OnIntegers.add_x_1 f eq_refl)
        as (_ & _ & Ev & _ & _ & _ & Inv)
  end.
  split; [exact Ev|]. apply Inv. simpl. lia.
Defined.

(** [Formula.add(x, y)], with two variable-bearing inputs, is built. *)
Lemma two_variable_inputs_not_rejected :
  1 < numVariables (o_inputs OnIntegers.add_x_y) /\
  isThrow (new_Formula (GeneralOptions OnIntegers.add_x_y)) = false /\
  exists f,
    Formula_add OnIntegers.x OnIntegers.y = Ok f /\
    inputs f = [OnIntegers.x; OnIntegers.y] /\
    Formula_hasVariable f = false.
Proof.
  split; [vm_compute; lia|]. split; [vm_compute; reflexivity|].
  eexists. split; [vm_compute; reflexivity|]. split; reflexivity.
Qed.

Lemma several_variable_inputs_accepted_witness :
  1 < numVariables (o_inputs OnIntegers.add_x_y) /\
  exists f,
    new_Formula (GeneralOptions OnIntegers.add_x_y) = Ok f /\
    Formula_hasVariable f = false /\
    isInvertible f = false.
Proof.
  assert (L : 1 < numVariables (o_inputs OnIntegers.add_x_y)) by (vm_compute; lia).
  split; [exact L|].
  pose proof (several_variable_inputs_accepted OnIntegers.add_x_y L) as H.
  simpl in H. destruct H as (f & E & _ & Hv & _ & Hi & _).
  exists f. split; [exact E|]. split; [exact Hv|exact Hi].
Defined.

Lemma inner_walk_rejects_complex_node_witness :
  applySubstitution OnIntegers.pow_x_2 = None /\
  evaluateIntegral ZDecimal emptyRegistry OnIntegers.pow_x_2 (Some 3%Z) (Some []) [0%Z] =
    Throw "Cannot have two complex operations in an integrable formula".
Proof.
  split; [reflexivity|].
  apply inner_walk_rejects_complex_node. reflexivity.
Defined.

Lemma equals_is_structural_witness :
  (forall z : Z, d_eq ZDecimal z z = true) /\
  equals ZDecimal [0%Z] OnIntegers.pow_x_2 OnIntegers.pow_x_2 = true.
Proof.
  split; [exact Z.eqb_refl|].
  exact (proj1 (equals_is_structural ZDecimal [0%Z] Z.eqb_refl) OnIntegers.pow_x_2).
Defined.

(** * Further properties of the code *)

Section Coverage.

Context {D : Type} (dec : DecimalOps D) (reg : @Registry D) (fromComponents_1_0_1 : D).

Implicit Types (this f g : @Formula D) (h : @Heap D) (variable : option D).

(** ** Leaves *)

Lemma invertIntegral_without_callback this (value : D) :
  internalInvertIntegral this = None ->
  invertIntegral reg this value =
    if Nat.eqb (List.length (inputs this)) 1 && internalHasVariable this
    then ret value
    else throw "Cannot invert integral of formula without invertible integral".
Proof. unfold invertIntegral. intros ->. reflexivity. Qed.

(** X1. [new Formula({ inputs })] without evaluate callback needs
    exactly one input and throws otherwise.  The leaf it builds has no
    variable; [evaluate] reads its input whatever the override, and
    [invert], [invertIntegral] and [evaluateIntegral] all throw. *)
Theorem constant_leaf_behaviour (inputs : list (@FormulaSource D)) :
  match inputs with
  | [input] =>
      exists f,
        new_Formula (ConstantOptions inputs) = Ok f /\
        Formula_hasVariable f = false /\
        (forall variable h,
           evaluate reg f variable h = unrefFormulaSource reg (Some input) None h) /\
        (forall (value : D) h,
           invert reg f value h = Throw "Cannot invert non-invertible formula") /\
        (forall (value : D) h,
           invertIntegral reg f value h =
             Throw "Cannot invert integral of formula without invertible integral") /\
        (forall variable h,
           evaluateIntegral dec reg f variable None h =
             Throw "Cannot integrate formula with non-existent operation") /\
        (forall variable stack h,
           evaluateIntegral dec reg f variable (Some stack) h =
             Throw "Cannot have two complex operations in an integrable formula")
  | _ =>
      new_Formula (ConstantOptions inputs) =
        Throw "Evaluate function is required if inputs is not length 1"
  end.
Proof.
  destruct inputs as [|input [|input' rest]]; [reflexivity| |reflexivity].
  eexists. split; [reflexivity|]. split; [reflexivity|].
  split; [|repeat split].
  intros variable h. rewrite evaluate_without_callback by reflexivity. reflexivity.
Qed.

(** X2. A variable leaf has the three capabilities.  [evaluate] returns
    the override, or the current value of the cell when there is none;
    [invert] and [invertIntegral] return their argument, so both round
    trips give the value back. *)
Theorem variable_leaf_behaviour (x : @ProcessedComputable D) :
  exists f,
    Formula_variable x = Ok f /\
    isInvertible f = true /\ isIntegrable f = true /\ isIntegralInvertible f = true /\
    innermostVariable f = Some x /\
    (forall variable h,
       evaluate reg f variable h =
         Ok (match variable with Some v => Some v | None => unrefIn h x end, h)) /\
    (forall (value : D) h, invert reg f value h = Ok (value, h)) /\
    (forall (value : D) h, invertIntegral reg f value h = Ok (value, h)) /\
    (forall (value : D) h, evaluate_of_invert reg f value h = Ok (Some value, h)) /\
    (forall (value : D) h, invert_of_evaluate dec reg f value h = Ok (value, h)).
Proof.
  exists (variableNode x). split; [reflexivity|]. repeat split.
  intros variable h. destruct variable; reflexivity.
Qed.

(** X3. The integral of a variable leaf.  Called without stack it is
    [integrateVariable] of the override and never reads the cell, also
    when there is no override; called with a stack it pushes the leaf
    and returns the override, or the current value of the cell.
    Neither call throws or writes. *)
Theorem variable_leaf_integral (x : @ProcessedComputable D) variable h :
  evaluateIntegral dec reg (variableNode x) variable None h =
    Ok ((Some (integrateVariable dec variable), None), h) /\
  forall stack,
    evaluateIntegral dec reg (variableNode x) variable (Some stack) h =
      Ok ((match variable with Some v => Some v | None => unrefIn h x end,
           Some (stack ++ [variableNode x])), h).
Proof.
  split; [reflexivity|]. intros stack. destruct variable; reflexivity.
Qed.

(** ** Operation nodes *)

Lemma setupFormula_result (options : @GeneralFormulaOptions D) :
  setupFormula options =
    if marked_without_inverse options then
      Throw "A formula cannot be marked as having a variable if it is not invertible"
    else
      let hv :=
        Nat.eqb (numVariables (o_inputs options)) 1 ||
        (Nat.eqb (numVariables (o_inputs options)) 0 &&
         match o_hasVariable options with Some true => true | _ => false end) in
      Ok {|
        p_inputs := o_inputs options;
        p_internalHasVariable := hv;
        p_innermostVariable := if hv then foundInnermost (o_inputs options) else None;
        p_internalEvaluate := Some (o_evaluate options);
        p_internalInvert :=
          if hv && match findVariable (o_inputs options) with
                   | Some v => isInvertible v
                   | None => false
                   end
          then o_invert options else None;
        p_internalIntegrate := o_integrate options;
        p_internalIntegrateInner := o_integrateInner options;
        p_applySubstitution := o_applySubstitution options;
        p_internalInvertIntegral :=
          if hv && match findVariable (o_inputs options) with
                   | Some v => isIntegralInvertible v
                   | None => false
                   end
          then o_invertIntegral options else None
      |}.
Proof.
  unfold setupFormula, marked_without_inverse, foundInnermost.
  destruct (_ && _ && _); reflexivity.
Qed.

(** The node that the constructor makes of accepted options. *)
Lemma operation_node (options : @GeneralFormulaOptions D) :
  marked_without_inverse options = false ->
  exists f,
    new_Formula (GeneralOptions options) = Ok f /\
    inputs f = o_inputs options /\
    internalHasVariable f =
      (Nat.eqb (numVariables (o_inputs options)) 1 ||
       (Nat.eqb (numVariables (o_inputs options)) 0 &&
        match o_hasVariable options with Some true => true | _ => false end)) /\
    innermostVariable f =
      (if internalHasVariable f then foundInnermost (o_inputs options) else None) /\
    internalIntegrate f = o_integrate options /\
    internalIntegrateInner f = o_integrateInner options /\
    applySubstitution f = o_applySubstitution options /\
    internalEvaluate f = None /\
    internalInvert f = None /\
    internalInvertIntegral f = None.
Proof.
  intros N. unfold new_Formula. rewrite setupFormula_result, N. cbn [rbind].
  eexists. split; [reflexivity|]. cbn. repeat split.
Qed.

Lemma numVariables_le_length (l : list (@FormulaSource D)) :
  numVariables l <= List.length l.
Proof. unfold numVariables. apply filter_length_le. Qed.

(** X4. The constructor rejects an operation node exactly when the
    has-variable flag is requested without invert and invert-integral
    callback.  An accepted node has the variable exactly when one input
    has it, or none has and the flag is set; in the second case it has
    no innermost variable, so the purchase utilities take its current
    value to be 0. *)
Theorem operation_node_acceptance (options : @GeneralFormulaOptions D) :
  isThrow (new_Formula (GeneralOptions options)) = marked_without_inverse options /\
  forall f,
    new_Formula (GeneralOptions options) = Ok f ->
    (Formula_hasVariable f = true <->
       numVariables (inputs f) = 1 \/
       (numVariables (inputs f) = 0 /\ o_hasVariable options = Some true)) /\
    (numVariables (inputs f) = 0 ->
     innermostVariable f = None /\ forall h, currentVariable dec f h = d_ofZ dec 0).
Proof.
  destruct (marked_without_inverse options) eqn:N.
  - unfold new_Formula. rewrite setupFormula_result, N. split; [reflexivity|].
    intros f E. discriminate E.
  - destruct (operation_node options N) as (f & E & Ei & Ehv & Einn & _).
    rewrite E. split; [reflexivity|].
    intros f' E'. injection E' as <-. unfold Formula_hasVariable.
    rewrite Ei, Ehv. split.
    + rewrite orb_true_iff, andb_true_iff, !Nat.eqb_eq.
      destruct (o_hasVariable options) as [[|]|]; split;
        intros [E1|[E0 Ef]]; auto; discriminate.
    + intros Z0.
      assert (Hn : innermostVariable f = None).
      { rewrite Einn. destruct (internalHasVariable f); [|reflexivity].
        unfold foundInnermost, findVariable.
        destruct (find hasVariable (o_inputs options)) as [s|] eqn:F; [|reflexivity].
        apply find_some in F. destruct F as (Hin & Hs).
        unfold numVariables in Z0.
        assert (Hf : In s (filter hasVariable (o_inputs options)))
          by (apply filter_In; split; assumption).
        destruct (filter hasVariable (o_inputs options)); [destruct Hf|discriminate Z0]. }
      split; [exact Hn|]. intros h. unfold currentVariable. rewrite Hn. reflexivity.
Qed.

(** X5. On every node that the constructor returns, [isInvertible()]
    and [isIntegralInvertible()] are [hasVariable()], whatever the
    operation, and [isIntegrable()] is [hasVariable()] together with
    the presence of an integrate callback. *)
Theorem constructed_capabilities (options : @FormulaOptions D) f :
  new_Formula options = Ok f ->
  isInvertible f = Formula_hasVariable f /\
  isIntegralInvertible f = Formula_hasVariable f /\
  isIntegrable f = Formula_hasVariable f && isSome (internalIntegrate f) /\
  (Formula_hasVariable f = true -> numVariables (inputs f) <= 1).
Proof.
  intros E. split; [exact (constructed_isInvertible options f E)|].
  split; [exact (constructed_isIntegralInvertible options f E)|].
  split; [reflexivity|].
  unfold new_Formula in E. destruct options as [x|ins|o]; cbn [rbind] in E.
  - injection E as <-. intros _. unfold numVariables. simpl. lia.
  - destruct (setupConstant ins) as [p|] eqn:S; [|discriminate E].
    unfold setupConstant in S. destruct (negb _) in S; [discriminate S|].
    injection S as <-. injection E as <-. discriminate.
  - rewrite setupFormula_result in E.
    destruct (marked_without_inverse o); [discriminate E|].
    cbn [rbind] in E. injection E as <-. unfold Formula_hasVariable.
    cbn [inputs internalHasVariable p_inputs p_internalHasVariable].
    rewrite orb_true_iff, andb_true_iff, !Nat.eqb_eq. intros [E1|[E0 _]]; lia.
Qed.

(** ** Whole trees *)

Lemma leftmostLeaf_unfold f :
  leftmostLeaf f =
    match inputs f with
    | [] => None
    | FSValue v :: _ => Some v
    | FSFormula g :: _ => leftmostLeaf g
    end.
Proof. destruct f; reflexivity. Qed.

(** [evaluate] on a tree of constructed nodes, for any registry. *)
Lemma evaluate_built_plain (r : @Registry D) f :
  Built f ->
  forall h,
    evaluate r f None h =
      Ok (match leftmostLeaf f with Some leaf => unrefIn h leaf | None => None end, h).
Proof.
  intros B. induction B as [options f E Hin IH]. intros h.
  destruct (new_Formula_callbacks options f E) as (Eev & _ & _).
  rewrite (evaluate_without_callback r f None Eev), leftmostLeaf_unfold.
  destruct (internalHasVariable f); cbv beta iota.
  - destruct (inputs f) as [|[g|v] rest]; cbn [hd_error unrefFormulaSource];
      [reflexivity| |reflexivity].
    apply IH. left. reflexivity.
  - destruct (inputs f) as [|[g|v] rest]; cbn [hd_error unrefFormulaSource];
      [reflexivity| |reflexivity].
    apply IH. left. reflexivity.
Qed.

Lemma evaluate_built_value (r : @Registry D) f variable h :
  Built f ->
  evaluate r f variable h =
    Ok (match (if Formula_hasVariable f then variable else None) with
        | Some v => Some v
        | None =>
            match leftmostLeaf f with
            | Some leaf => unrefIn h leaf
            | None => None
            end
        end, h).
Proof.
  intros B. destruct (if Formula_hasVariable f then variable else None) as [v|] eqn:C.
  - destruct B as [options f E _].
    destruct (new_Formula_callbacks options f E) as (Eev & _ & _).
    rewrite (evaluate_without_callback r f variable Eev).
    unfold Formula_hasVariable in C. rewrite C. reflexivity.
  - rewrite <- (evaluate_built_plain r f B h).
    destruct B as [options f E _].
    destruct (new_Formula_callbacks options f E) as (Eev & _ & _).
    rewrite !(evaluate_without_callback r f _ Eev).
    unfold Formula_hasVariable in C. rewrite C.
    destruct (internalHasVariable f); reflexivity.
Qed.

Lemma Built_root f :
  Built f ->
  internalEvaluate f = None /\ internalInvert f = None /\ internalInvertIntegral f = None.
Proof. intros [options f' E _]. exact (new_Formula_callbacks options f' E). Qed.

(** X6. On a tree all of whose nodes came out of the constructor,
    [evaluate] calls no operation: the result is the same for every
    registry, it is never a throw, no cell is written, and the value is
    the override when the root has the variable and an override is
    given, and otherwise the current value of the leaf reached by
    following first inputs. *)
Theorem evaluate_built f variable h :
  Built f ->
  evaluate reg f variable h =
    Ok (match (if Formula_hasVariable f then variable else None) with
        | Some v => Some v
        | None =>
            match leftmostLeaf f with
            | Some leaf => unrefIn h leaf
            | None => None
            end
        end, h) /\
  forall r : @Registry D, evaluate r f variable h = evaluate reg f variable h.
Proof.
  intros B. split; [apply evaluate_built_value; exact B|].
  intros r. rewrite !evaluate_built_value by exact B. reflexivity.
Qed.

(** X7. On a tree of constructed nodes, [invert] and [invertIntegral]
    return their argument when the root has one input and the variable,
    and throw otherwise; the two round trips through [evaluate] give
    the value back in the first case and throw in the second. *)
Theorem built_inverses f (value : D) h :
  Built f ->
  if Nat.eqb (List.length (inputs f)) 1 && Formula_hasVariable f then
    invert reg f value h = Ok (value, h) /\
    invertIntegral reg f value h = Ok (value, h) /\
    evaluate_of_invert reg f value h = Ok (Some value, h) /\
    invert_of_evaluate dec reg f value h = Ok (value, h)
  else
    invert reg f value h = Throw "Cannot invert non-invertible formula" /\
    invertIntegral reg f value h =
      Throw "Cannot invert integral of formula without invertible integral" /\
    evaluate_of_invert reg f value h = Throw "Cannot invert non-invertible formula" /\
    invert_of_evaluate dec reg f value h = Throw "Cannot invert non-invertible formula".
Proof.
  intros B. destruct (Built_root f B) as (Eev & Einv & Eint).
  assert (Ei : forall (v : D) h0,
            invert reg f v h0 =
              if Nat.eqb (List.length (inputs f)) 1 && Formula_hasVariable f
              then Ok (v, h0) else Throw "Cannot invert non-invertible formula").
  { intros v h0. rewrite (invert_without_callback reg f v Einv).
    unfold Formula_hasVariable. destruct (_ && _); reflexivity. }
  unfold evaluate_of_invert, invert_of_evaluate, bind.
  rewrite (evaluate_built_value reg f (Some value) h B), !Ei.
  rewrite (invertIntegral_without_callback f value Eint).
  unfold Formula_hasVariable.
  destruct (Nat.eqb (List.length (inputs f)) 1) eqn:L;
    destruct (internalHasVariable f) eqn:V; cbn [andb]; cbv beta iota;
    repeat split.
  rewrite (evaluate_built_value reg f (Some value) h B).
  unfold Formula_hasVariable. rewrite V. reflexivity.
Qed.

(** ** The purchase utilities on constructed trees *)

(** X8. Without [spendResources], [calculateMaxAffordable] on a
    constructed node is [floor] of the balance when the node has the
    variable and one input, whatever its operation; with the variable
    and another number of inputs it throws from [invert], and without
    the variable it throws its own message. *)
Theorem calculateMaxAffordable_marginal (options : @FormulaOptions D) f
    (resource : @Resource D) h :
  new_Formula options = Ok f ->
  calculateMaxAffordable dec reg f resource false h =
    if Formula_hasVariable f then
      if Nat.eqb (List.length (inputs f)) 1
      then Ok (d_floor dec (Resource_value resource), h)
      else Throw "Cannot invert non-invertible formula"
    else Throw "Cannot calculate max affordable of non-invertible formula".
Proof.
  intros E. unfold calculateMaxAffordable.
  rewrite (constructed_isInvertible options f E).
  destruct (Formula_hasVariable f) eqn:V; cbn [negb]; [|reflexivity].
  unfold bind. rewrite (constructed_invert reg options f _ h E), V, andb_true_r.
  destruct (Nat.eqb (List.length (inputs f)) 1); reflexivity.
Qed.

(** X9. Without [spendResources], [calculateCost] on a tree of
    constructed nodes with the variable is [amountToBuy] plus the
    current value of the variable, whatever the operations; without the
    variable it is the current value of the leftmost leaf. *)
Theorem calculateCost_marginal f (amountToBuy : D) h :
  Built f ->
  calculateCost dec reg f amountToBuy false h =
    Ok (if Formula_hasVariable f
        then Some (d_add dec amountToBuy (currentVariable dec f h))
        else match leftmostLeaf f with
             | Some leaf => unrefIn h leaf
             | None => None
             end, h).
Proof.
  intros B. unfold calculateCost, currentVariable, bind, unrefOpt, unref, ret.
  destruct (innermostVariable f) as [cell|]; cbv beta iota;
    rewrite (evaluate_built_value reg f _ h B);
    destruct (Formula_hasVariable f); reflexivity.
Qed.

(** X10. With [spendResources], on a bare variable leaf: the cost is
    [integrateVariable] at [amountToBuy] plus the current value, minus
    [integrateVariable] of an absent argument, not of the current
    value; and the maximum affordable is [floor] of the balance plus
    that same [integrateVariable] of an absent argument, minus the
    current value. *)
Theorem variable_leaf_purchases (x : @ProcessedComputable D) (amountToBuy : D)
    (resource : @Resource D) h :
  calculateCost dec reg (variableNode x) amountToBuy true h =
    Ok (Some (d_sub dec
                (integrateVariable dec
                   (Some (d_add dec amountToBuy (currentVariable dec (variableNode x) h))))
                (integrateVariable dec None)), h) /\
  calculateMaxAffordable dec reg (variableNode x) resource true h =
    Ok (d_sub dec
          (d_floor dec (d_add dec (Resource_value resource) (integrateVariable dec None)))
          (currentVariable dec (variableNode x) h), h).
Proof.
  unfold calculateCost, calculateMaxAffordable, currentVariable, bind, unrefOpt, unref, ret.
  cbn [innermostVariable variableNode]. split.
  - destruct (unrefIn h x); reflexivity.
  - cbn. destruct (unrefIn h x); reflexivity.
Qed.

(** X11. On a tree of constructed nodes with the variable,
    [calculateConstantOfIntegration] is 0 minus the integral at 1: the
    cost that it reads from [evaluate(0)] is the override 0 itself. *)
Theorem constant_of_integration_built f h :
  Built f -> Formula_hasVariable f = true ->
  calculateConstantOfIntegration dec reg f h =
    match evaluateIntegral dec reg f (Some (d_ofZ dec 1)) None h with
    | Ok ((integral, _), h1) =>
        Ok (d_sub dec (d_ofZ dec 0) (toDecimal dec integral), h1)
    | Throw msg => Throw msg
    end.
Proof.
  intros B V. unfold calculateConstantOfIntegration, bind.
  destruct (evaluateIntegral dec reg f (Some (d_ofZ dec 1)) None h)
    as [[[integral stack] h1]|msg]; [|reflexivity].
  rewrite (evaluate_built_value reg f _ h1 B), V. reflexivity.
Qed.

(** X12. The innermost variable of a tree of constructed nodes is the
    cell of a variable leaf of that tree, reached through inputs that
    have the variable; and a node with an innermost variable has the
    variable. *)
Theorem innermost_variable_is_a_leaf f (x : @ProcessedComputable D) :
  Built f -> innermostVariable f = Some x ->
  HoldsVariable f x /\ Formula_hasVariable f = true.
Proof.
  intros B. revert x. induction B as [options f E Hin IH]. intros x Ex.
  unfold new_Formula in E. destruct options as [x0|ins|o]; cbn [rbind] in E.
  - injection E as <-. cbn in Ex. injection Ex as ->.
    split; [constructor|reflexivity].
  - destruct (setupConstant ins) as [p|] eqn:S; [|discriminate E].
    unfold setupConstant in S. destruct (negb _) in S; [discriminate S|].
    injection S as <-. injection E as <-. discriminate Ex.
  - rewrite setupFormula_result in E.
    destruct (marked_without_inverse o); [discriminate E|].
    cbn [rbind] in E. injection E as <-.
    cbn [innermostVariable p_innermostVariable p_internalHasVariable] in Ex.
    cbn [inputs p_inputs] in Hin, IH.
    unfold Formula_hasVariable.
    cbn [internalHasVariable p_internalHasVariable].
    destruct (_ || _); [|discriminate Ex]. split; [|reflexivity].
    unfold foundInnermost, findVariable in Ex.
    destruct (find hasVariable (o_inputs o)) as [[g|v]|] eqn:F; try discriminate Ex.
    apply find_some in F. destruct F as (Hg & Hv).
    eapply HoldsVariable_input; [exact Hg|exact Hv|].
    apply (IH g Hg x Ex).
Qed.

(** ** The catalogue of factories *)

Lemma factory_node (options : @GeneralFormulaOptions D) :
  o_hasVariable options = None ->
  exists f,
    new_Formula (GeneralOptions options) = Ok f /\
    inputs f = o_inputs options /\
    Formula_hasVariable f = Nat.eqb (numVariables (o_inputs options)) 1 /\
    internalIntegrate f = o_integrate options /\
    internalIntegrateInner f = o_integrateInner options /\
    applySubstitution f = o_applySubstitution options.
Proof.
  intros N.
  assert (M0 : marked_without_inverse options = false).
  { unfold marked_without_inverse. rewrite N. apply andb_false_r. }
  destruct (operation_node options M0) as (f & E & Ei & Ehv & _ & Eint & Einn & Esub & _).
  exists f. unfold Formula_hasVariable. rewrite Ehv, N, andb_false_r, orb_false_r.
  repeat split; assumption.
Qed.

Lemma numVariables_1 (v : @FormulaSource D) :
  Nat.eqb (numVariables [v]) 1 = hasVariable v.
Proof. unfold numVariables. cbn [filter]. destruct (hasVariable v); reflexivity. Qed.

Lemma numVariables_2 (a b : @FormulaSource D) :
  Nat.eqb (numVariables [a; b]) 1 = xorb (hasVariable a) (hasVariable b).
Proof.
  unfold numVariables. cbn [filter].
  destruct (hasVariable a), (hasVariable b); reflexivity.
Qed.

Ltac unfold_factory :=
  cbv beta iota zeta delta [Formula_abs Formula_neg Formula_sign Formula_round Formula_floor Formula_ceil Formula_trunc Formula_add Formula_sub Formula_mul Formula_div Formula_recip Formula_max Formula_clamp Formula_pLog10 Formula_absLog10 Formula_log10 Formula_log Formula_log2 Formula_ln Formula_pow Formula_pow10 Formula_pow_base Formula_root Formula_factorial Formula_gamma Formula_lngamma Formula_exp Formula_tetrate Formula_iteratedexp Formula_iteratedlog Formula_slog Formula_layeradd10 Formula_layeradd Formula_lambertw Formula_ssqrt Formula_pentate Formula_sin Formula_cos Formula_tan Formula_asin Formula_acos Formula_atan Formula_sinh Formula_cosh Formula_tanh Formula_asinh Formula_acosh Formula_atanh].

(** One goal for each factory of a list. *)
Ltac each_factory :=
  cbv beta iota delta [app unary_linear unary_complex_integrate unary_complex_plain
                       binary_linear binary_complex_integrate binary_complex_plain
                       ternary_complex_plain];
  repeat (apply Forall_cons; [|]); [..|apply Forall_nil].

(** Reduces a goal on the node built by a factory to the fields that
    [factory_node] gives for its options. *)
Ltac with_factory_node :=
  unfold_factory;
  lazymatch goal with
  | |- exists f, new_Formula (GeneralOptions ?o) = Ok f /\ _ =>
      let f := fresh "f" in
      let E := fresh "E" in
      let Ei := fresh "Ei" in
      let Ehv := fresh "Ehv" in
      let Eint := fresh "Eint" in
      let Einn := fresh "Einn" in
      let Esub := fresh "Esub" in
      destruct (factory_node o eq_refl) as (f & E & Ei & Ehv & Eint & Einn & Esub);
      cbn [o_inputs o_integrate o_integrateInner o_applySubstitution]
        in Ei, Ehv, Eint, Einn, Esub;
      exists f; split; [exact E|]
  end.

(** X13. No factory of the catalogue throws.  The node has the inputs
    it was given; a node of one input has the variable when the input
    has it, a node of two inputs when exactly one of them has it, and a
    node of three inputs when exactly one of the three has it. *)
Theorem catalogue_builds :
  Forall (fun F => forall v : @FormulaSource D,
            exists f, F v = Ok f /\ inputs f = [v] /\
                      Formula_hasVariable f = hasVariable v)
         (unary_linear ++ unary_complex_integrate ++ unary_complex_plain) /\
  Forall (fun F => forall a b : @FormulaSource D,
            exists f, F a b = Ok f /\ inputs f = [a; b] /\
                      Formula_hasVariable f = xorb (hasVariable a) (hasVariable b))
         (binary_linear ++ binary_complex_integrate ++ binary_complex_plain dec) /\
  Forall (fun F => forall a b c : @FormulaSource D,
            exists f, F a b c = Ok f /\ inputs f = [a; b; c] /\
                      Formula_hasVariable f = Nat.eqb (numVariables [a; b; c]) 1)
         (ternary_complex_plain dec fromComponents_1_0_1).
Proof.
  split; [|split].
  - each_factory. all: intros v; with_factory_node.
    all: rewrite numVariables_1 in Ehv; split; assumption.
  - each_factory. all: intros a b; with_factory_node.
    all: rewrite numVariables_2 in Ehv; split; assumption.
  - each_factory. all: intros a b c; with_factory_node.
    all: split; assumption.
Qed.

(** X14. Every factory but [neg], [add], [sub], [mul] and [div] builds
    a node that ends the inner part of an integration walk: with a
    stack present, [evaluateIntegral] throws on it, whatever its
    inputs. *)
Theorem complex_factories_end_the_walk :
  let ends f :=
    forall variable (stack : @SubstitutionStack D) h,
      evaluateIntegral dec reg f variable (Some stack) h =
        Throw "Cannot have two complex operations in an integrable formula" in
  Forall (fun F => forall v : @FormulaSource D, exists f, F v = Ok f /\ ends f)
         (unary_complex_integrate ++ unary_complex_plain) /\
  Forall (fun F => forall a b : @FormulaSource D, exists f, F a b = Ok f /\ ends f)
         (binary_complex_integrate ++ binary_complex_plain dec) /\
  Forall (fun F => forall a b c : @FormulaSource D, exists f, F a b c = Ok f /\ ends f)
         (ternary_complex_plain dec fromComponents_1_0_1).
Proof.
  intros ends. subst ends. cbv beta. split; [|split].
  - each_factory. all: intros v; with_factory_node.
    all: intros variable stack h; unfold evaluateIntegral; rewrite Esub; reflexivity.
  - each_factory. all: intros a b; with_factory_node.
    all: intros variable stack h; unfold evaluateIntegral; rewrite Esub; reflexivity.
  - each_factory. all: intros a b c; with_factory_node.
    all: intros variable stack h; unfold evaluateIntegral; rewrite Esub; reflexivity.
Qed.

(** X15. The factories that pass no integrate callback ([abs], [sign],
    the rounding ones, [max], [clamp], the hyper-operations, ...) build
    nodes that are never integrable, and [evaluateIntegral] without
    stack throws on them. *)
Theorem plain_factories_do_not_integrate :
  let plain f :=
    isIntegrable f = false /\
    forall variable h,
      evaluateIntegral dec reg f variable None h =
        Throw "Cannot integrate formula with non-existent operation" in
  Forall (fun F => forall v : @FormulaSource D, exists f, F v = Ok f /\ plain f)
         unary_complex_plain /\
  Forall (fun F => forall a b : @FormulaSource D, exists f, F a b = Ok f /\ plain f)
         (binary_complex_plain dec) /\
  Forall (fun F => forall a b c : @FormulaSource D, exists f, F a b c = Ok f /\ plain f)
         (ternary_complex_plain dec fromComponents_1_0_1).
Proof.
  intros plain. subst plain. cbv beta. split; [|split].
  - each_factory. all: intros v; with_factory_node.
    all: unfold isIntegrable, evaluateIntegral; rewrite Esub, Eint.
    all: split; [apply andb_false_r|reflexivity].
  - each_factory. all: intros a b; with_factory_node.
    all: unfold isIntegrable, evaluateIntegral; rewrite Esub, Eint.
    all: split; [apply andb_false_r|reflexivity].
  - each_factory. all: intros a b c; with_factory_node.
    all: unfold isIntegrable, evaluateIntegral; rewrite Esub, Eint.
    all: split; [apply andb_false_r|reflexivity].
Qed.

(** X16. The five linear factories.  With a stack present,
    [evaluateIntegral] pushes the node on the stack and calls the
    integrate-inner callback of [add] and [sub], the integrate callback
    of [neg], [mul] and [div]; without stack it calls the integrate
    callback with no stack and returns its value. *)
Theorem linear_factories_continue_the_walk :
  let continues f (inner outer : Callback) :=
    (forall variable (stack : @SubstitutionStack D) h,
       evaluateIntegral dec reg f variable (Some stack) h =
         callIntegrate reg inner f variable (Some (stack ++ [f])) (inputs f) h) /\
    (forall variable h,
       evaluateIntegral dec reg f variable None h =
         match callIntegrate reg outer f variable None (inputs f) h with
         | Ok ((value, _), h1) => Ok ((value, None), h1)
         | Throw msg => Throw msg
         end) in
  Forall (fun '(F, inner, outer) =>
            forall v : @FormulaSource D, exists f, F v = Ok f /\ continues f inner outer)
         [(Formula_neg, ops_fn "integrateNeg", ops_fn "integrateNeg")] /\
  Forall (fun '(F, inner, outer) =>
            forall a b : @FormulaSource D,
              exists f, F a b = Ok f /\ continues f inner outer)
         [(Formula_add, ops_fn "integrateInnerAdd", ops_fn "integrateAdd");
          (Formula_sub, ops_fn "integrateInnerSub", ops_fn "integrateSub");
          (Formula_mul, ops_fn "integrateMul", ops_fn "integrateMul");
          (Formula_div, ops_fn "integrateDiv", ops_fn "integrateDiv")].
Proof.
  intros continues. subst continues. cbv beta. split.
  - repeat (apply Forall_cons; [|]); [..|apply Forall_nil].
    all: intros v; with_factory_node.
    all: split; intros; unfold evaluateIntegral, bind;
      rewrite Esub; cbv beta iota; rewrite ?Einn; cbv beta iota;
      rewrite ?Eint; cbn [runIntegrate]; [reflexivity|].
    all: destruct (callIntegrate _ _ _ _ _ _ _) as [[[value st] h1]|msg]; reflexivity.
  - repeat (apply Forall_cons; [|]); [..|apply Forall_nil].
    all: intros a b; with_factory_node.
    all: split; intros; unfold evaluateIntegral, bind;
      rewrite Esub; cbv beta iota; rewrite ?Einn; cbv beta iota;
      rewrite ?Eint; cbn [runIntegrate]; [reflexivity|].
    all: destruct (callIntegrate _ _ _ _ _ _ _) as [[[value st] h1]|msg]; reflexivity.
Qed.

(** ** [step] and [if] *)

(** X17. [Formula.step] and [Formula.if] throw only when the modifier
    throws, and write nothing but the cell they allocate and what the
    modifier writes.  The node has the one input, has the variable when
    the input has it, and is never integrable.  As the closures do not
    reach the instance, [if] builds the very node that [step] builds
    from the same input and modifier, whatever the start and the
    condition. *)
Theorem step_and_if_nodes (value : @FormulaSource D) (start : @ProcessedComputable D)
    (condition : @Heap D -> bool) (formulaModifier : @Formula D -> M (@Formula D)) h :
  Formula_if dec value condition formulaModifier h =
    Formula_step dec value start formulaModifier h /\
  match formulaModifier (variableNode (PCRef (List.length h))) (h ++ [d_ofZ dec 0]) with
  | Throw msg => Formula_step dec value start formulaModifier h = Throw msg
  | Ok (formula, h') =>
      exists f,
        Formula_step dec value start formulaModifier h = Ok (f, h') /\
        inputs f = [value] /\
        Formula_hasVariable f = hasVariable value /\
        isIntegrable f = false /\
        (forall variable h0,
           evaluateIntegral dec reg f variable None h0 =
             Throw "Cannot integrate formula with non-existent operation")
  end.
Proof.
  split; [reflexivity|].
  unfold Formula_step, bind, newCell, lift. cbn [Formula_variable new_Formula rbind].
  change (new_Formula (VariableOptions (PCRef (List.length h))))
    with (Ok (variableNode (@PCRef D (List.length h)))).
  cbv beta iota.
  destruct (formulaModifier _ _) as [[formula h']|msg]; [|reflexivity].
  match goal with
  | |- context [new_Formula (GeneralOptions ?o)] =>
      destruct (factory_node o eq_refl) as (f & E & Ei & Ehv & Eint & Einn & Esub);
      cbn [o_inputs o_integrate o_integrateInner o_applySubstitution]
        in Ei, Ehv, Eint, Einn, Esub;
      rewrite E
  end.
  exists f. split; [reflexivity|]. split; [exact Ei|].
  rewrite numVariables_1 in Ehv. split; [exact Ehv|].
  unfold isIntegrable, evaluateIntegral. rewrite Esub, Eint.
  split; [apply andb_false_r|reflexivity].
Qed.

Lemma setNth_length h (cell : nat) (d : D) :
  List.length (setNth h cell d) = List.length h.
Proof.
  revert cell. induction h as [|a h' IH]; intros [|n]; cbn; auto.
Qed.

Lemma setNth_other h (cell c : nat) (d : D) :
  c <> cell -> nth_error (setNth h cell d) c = nth_error h c.
Proof.
  revert cell c. induction h as [|a h' IH]; intros [|n] [|m] N; cbn; auto;
    try contradiction.
Qed.

(** X18. The evaluate closures of [step] and [if], over a modifier
    result made of constructed nodes: they never throw, keep the number
    of cells, and write no cell but their own.  Below the start, and
    with a false condition, they return their argument and write
    nothing. *)
Theorem eval_closures_frame (lhsRef : nat) (formula : @Formula D)
    (processedStart : @ProcessedComputable D) (processedCondition : @Heap D -> bool)
    (lhs : D) h :
  Built formula ->
  let framed (m : M (option D)) :=
    exists r h',
      m h = Ok (r, h') /\
      List.length h' = List.length h /\
      forall c, c <> lhsRef -> nth_error h' c = nth_error h c in
  framed (evalStep dec reg lhsRef formula processedStart lhs) /\
  framed (if_evalStep reg lhsRef formula processedCondition lhs) /\
  (d_lt dec lhs (toDecimal dec (unrefIn h processedStart)) = true ->
   evalStep dec reg lhsRef formula processedStart lhs h = Ok (Some lhs, h)) /\
  (processedCondition h = false ->
   if_evalStep reg lhsRef formula processedCondition lhs h = Ok (Some lhs, h)).
Proof.
  intros B framed. subst framed. cbv beta.
  unfold evalStep, if_evalStep, bind, unref, writeCell, ret.
  repeat split.
  - destruct (d_lt dec lhs (toDecimal dec (unrefIn h processedStart))).
    + exists (Some lhs), h. auto.
    + rewrite (evaluate_built_value reg formula None _ B).
      eexists. eexists. split; [reflexivity|].
      split; [apply setNth_length|]. intros c N. apply setNth_other. exact N.
  - destruct (processedCondition h).
    + rewrite (evaluate_built_value reg formula None _ B).
      eexists. eexists. split; [reflexivity|].
      split; [apply setNth_length|]. intros c N. apply setNth_other. exact N.
    + exists (Some lhs), h. auto.
  - intros ->. reflexivity.
  - intros ->. reflexivity.
Qed.

(** X19. The invert closures of [step] and [if] throw, without reading
    or writing anything, when their input has no variable. *)
Theorem invert_closures_need_variable (formula : @Formula D)
    (processedStart : @ProcessedComputable D) (processedCondition : @Heap D -> bool)
    (value : D) (lhs : @FormulaSource D) h :
  hasVariable lhs = false ->
  invertStep dec reg formula processedStart value lhs h =
    Throw "Could not invert due to no input being a variable" /\
  if_invertStep reg formula processedCondition value lhs h =
    Throw "Could not invert due to no input being a variable".
Proof.
  unfold invertStep, if_invertStep. destruct lhs as [l|v]; cbn [hasVariable].
  - intros ->. split; reflexivity.
  - intros _. split; reflexivity.
Qed.

(** ** More on [equals] *)

(** Induction on a formula, with the property at hand for the formulas
    among its inputs. *)
Lemma Formula_ind_inputs (P : @Formula D -> Prop) :
  (forall f, (forall g, In (FSFormula g) (inputs f) -> P g) -> P f) ->
  forall f, P f.
Proof.
  intros H f. induction f as [ins IH ev inv int inti sub invint hv innermost].
  apply H. cbn [inputs]. intros g Hg.
  induction IH as [|input Hin ins' Hins IHins]; [destruct Hg|].
  destruct Hg as [->|Hg]; [|exact (IHins Hg)].
  inversion Hin. assumption.
Qed.

Lemma Forall2_swap_inputs (R : @FormulaSource D -> @FormulaSource D -> Prop)
    (l l' : list (@FormulaSource D)) :
  (forall a b, In a l -> R a b -> R b a) ->
  Forall2 R l l' -> Forall2 R l' l.
Proof.
  intros H F. induction F as [|a b l l' Rab F IH]; constructor.
  - apply H; [left; reflexivity|exact Rab].
  - apply IH. intros a' b' Hin. apply H. right. exact Hin.
Qed.

Lemma Forall2_chain_inputs (R : @FormulaSource D -> @FormulaSource D -> Prop)
    (l l' l'' : list (@FormulaSource D)) :
  (forall a b c, In a l -> R a b -> R b c -> R a c) ->
  Forall2 R l l' -> Forall2 R l' l'' -> Forall2 R l l''.
Proof.
  intros H F. revert l''. induction F as [|a b l l' Rab F IH]; intros l'' G;
    inversion G; subst; constructor.
  - eapply H; [left; reflexivity|exact Rab|eassumption].
  - apply IH; [|assumption]. intros a' b' c' Hin. apply H. right. exact Hin.
Qed.

Lemma equals_symmetric_true h :
  (forall a b : D, d_eq dec a b = d_eq dec b a) ->
  forall f g, equals dec h f g = true -> equals dec h g f = true.
Proof.
  intros S f. induction f as [f IH] using Formula_ind_inputs. intros g E.
  apply equals_iff in E. destruct E as (L & F & E1 & E2 & E3 & E4 & E5).
  apply equals_iff. repeat split; try (symmetry; assumption).
  apply Forall2_swap_inputs in F.
  - revert F. apply Forall2_impl. intros a b Hab. exact Hab.
  - intros [a|a] [b|b] Hin Hab; cbn [sourceEquals] in *; try discriminate Hab.
    + apply IH; assumption.
    + rewrite S. exact Hab.
Qed.

(** X20. When the numeric equality is symmetric, so is [equals]. *)
Theorem equals_symmetric h f g :
  (forall a b : D, d_eq dec a b = d_eq dec b a) ->
  equals dec h f g = equals dec h g f.
Proof.
  intros S.
  destruct (equals dec h f g) eqn:E1.
  - symmetry. apply (equals_symmetric_true h S f g E1).
  - destruct (equals dec h g f) eqn:E2; [|reflexivity].
    rewrite (equals_symmetric_true h S g f E2) in E1. discriminate E1.
Qed.

(** X21. When the numeric equality is transitive, so is [equals]. *)
Theorem equals_transitive h f :
  (forall a b c : D, d_eq dec a b = true -> d_eq dec b c = true -> d_eq dec a c = true) ->
  forall g k,
    equals dec h f g = true -> equals dec h g k = true -> equals dec h f k = true.
Proof.
  intros T. induction f as [f IH] using Formula_ind_inputs. intros g k E G.
  apply equals_iff in E. destruct E as (L & F & E1 & E2 & E3 & E4 & E5).
  apply equals_iff in G. destruct G as (L' & F' & G1 & G2 & G3 & G4 & G5).
  apply equals_iff. repeat split; try congruence.
  apply (Forall2_chain_inputs _ (inputs f) (inputs g) (inputs k)); [|exact F|exact F'].
  intros [a|a] [b|b] [c|c] Hin Hab Hbc; cbn [sourceEquals] in *;
    try discriminate Hab; try discriminate Hbc.
  - exact (IH a Hin b c Hab Hbc).
  - exact (T _ _ _ Hab Hbc).
Qed.

(** X22. On two operation nodes from the constructor, [equals] looks
    at the inputs, the integrate callback and the derived has-variable
    flag only: the evaluate, invert, invert-integral, integrate-inner
    and apply-substitution callbacks of the options play no part. *)
Theorem equals_of_operation_nodes (o1 o2 : @GeneralFormulaOptions D) f g h :
  new_Formula (GeneralOptions o1) = Ok f ->
  new_Formula (GeneralOptions o2) = Ok g ->
  (equals dec h f g = true <->
   Forall2 (fun a b => sourceEquals dec h a b = true) (o_inputs o1) (o_inputs o2) /\
   o_integrate o1 = o_integrate o2 /\
   Formula_hasVariable f = Formula_hasVariable g).
Proof.
  intros Ef Eg.
  destruct (new_Formula_callbacks _ _ Ef) as (F1 & F2 & F3).
  destruct (new_Formula_callbacks _ _ Eg) as (G1 & G2 & G3).
  unfold new_Formula in Ef, Eg. rewrite setupFormula_result in Ef, Eg.
  destruct (marked_without_inverse o1); [discriminate Ef|].
  destruct (marked_without_inverse o2); [discriminate Eg|].
  cbn [rbind] in Ef, Eg. injection Ef as <-. injection Eg as <-.
  rewrite equals_iff. unfold Formula_hasVariable.
  cbn [inputs internalEvaluate internalInvert internalIntegrate internalInvertIntegral
       internalHasVariable p_inputs p_internalIntegrate p_internalHasVariable].
  split.
  - intros (_ & F & _ & _ & I & _ & V). auto.
  - intros (F & I & V). repeat split; auto.
    apply (Forall2_length F).
Qed.

Lemma equals_leftmost h :
  (forall x : D, d_eq dec x x = true) ->
  forall f g,
    equals dec h f g = true ->
    d_eq dec
      (toDecimal dec (match leftmostLeaf f with Some leaf => unrefIn h leaf | None => None end))
      (toDecimal dec (match leftmostLeaf g with Some leaf => unrefIn h leaf | None => None end))
    = true.
Proof.
  intros R f. induction f as [f IH] using Formula_ind_inputs. intros g E.
  apply equals_iff in E. destruct E as (_ & F & _).
  rewrite (leftmostLeaf_unfold f), (leftmostLeaf_unfold g).
  destruct F as [|a b l l' Hab F]; [apply R|].
  destruct a as [a|a], b as [b|b]; cbn [sourceEquals] in Hab; try discriminate Hab.
  - apply IH; [left; reflexivity|exact Hab].
  - exact Hab.
Qed.

(** X23. On trees of constructed nodes, formulas that [equals] holds of
    evaluate alike: for either override, both calls return, and the two
    values are equal numbers (the numeric equality being reflexive). *)
Theorem equal_formulas_evaluate_alike h f g variable :
  (forall x : D, d_eq dec x x = true) ->
  Built f -> Built g -> equals dec h f g = true ->
  exists r1 r2,
    evaluate reg f variable h = Ok (r1, h) /\
    evaluate reg g variable h = Ok (r2, h) /\
    d_eq dec (toDecimal dec r1) (toDecimal dec r2) = true.
Proof.
  intros R Bf Bg E.
  rewrite (evaluate_built_value reg f variable h Bf).
  rewrite (evaluate_built_value reg g variable h Bg).
  eexists. eexists. split; [reflexivity|]. split; [reflexivity|].
  pose proof (equals_leftmost h R f g E) as L.
  apply equals_iff in E. destruct E as (_ & _ & _ & _ & _ & _ & V).
  unfold Formula_hasVariable. rewrite V.
  destruct (internalHasVariable g); [|exact L].
  destruct variable as [v|]; [apply R|exact L].
Qed.

End Coverage.

(** * Instances of the further theorems that carry a hypothesis *)

Module CoverageInstances.

Import OnIntegers MoreOnIntegers.

Lemma x_leaf_built : Built x_leaf.
Proof.
  apply (Built_node (VariableOptions (PCRef 0))); [reflexivity|].
  intros g [Hg|[]]. discriminate Hg.
Qed.

Lemma add_x_1_constructed : new_Formula (GeneralOptions add_x_1) = Ok add_x_1_node.
Proof. vm_compute. reflexivity. Qed.

Lemma add_x_1_built : Built add_x_1_node.
Proof.
  apply (Built_node (GeneralOptions add_x_1)); [exact add_x_1_constructed|].
  intros g [Hg|[Hg|[]]]; [|discriminate Hg].
  injection Hg as <-. exact x_leaf_built.
Qed.

Lemma Z_eqb_transitive (a b c : Z) :
  Z.eqb a b = true -> Z.eqb b c = true -> Z.eqb a c = true.
Proof. rewrite !Z.eqb_eq. congruence. Qed.

End CoverageInstances.

Lemma constructed_capabilities_witness :
  new_Formula (GeneralOptions OnIntegers.add_x_1) = Ok MoreOnIntegers.add_x_1_node /\
  isInvertible MoreOnIntegers.add_x_1_node = true /\
  isIntegralInvertible MoreOnIntegers.add_x_1_node = true.
Proof.
  split; [exact CoverageInstances.add_x_1_constructed|].
  destruct (constructed_capabilities (GeneralOptions OnIntegers.add_x_1)
              MoreOnIntegers.add_x_1_node CoverageInstances.add_x_1_constructed)
    as (H1 & H2 & _).
  split; [exact H1|exact H2].
Defined.

Lemma evaluate_built_witness :
  evaluate emptyRegistry MoreOnIntegers.add_x_1_node (Some 7%Z) [3%Z] = Ok (Some 7%Z, [3%Z]) /\
  evaluate emptyRegistry MoreOnIntegers.add_x_1_node None [3%Z] = Ok (Some 3%Z, [3%Z]).
Proof.
  split.
  - exact (proj1 (evaluate_built emptyRegistry MoreOnIntegers.add_x_1_node (Some 7%Z) [3%Z]
                    CoverageInstances.add_x_1_built)).
  - exact (proj1 (evaluate_built emptyRegistry MoreOnIntegers.add_x_1_node None [3%Z]
                    CoverageInstances.add_x_1_built)).
Defined.

Lemma built_inverses_witness :
  invert emptyRegistry MoreOnIntegers.x_leaf 5%Z [3%Z] = Ok (5%Z, [3%Z]) /\
  invert emptyRegistry MoreOnIntegers.add_x_1_node 5%Z [3%Z] =
    Throw "Cannot invert non-invertible formula".
Proof.
  pose proof (built_inverses ZDecimal emptyRegistry MoreOnIntegers.x_leaf 5%Z [3%Z]
                CoverageInstances.x_leaf_built) as H1.
  pose proof (built_inverses ZDecimal emptyRegistry MoreOnIntegers.add_x_1_node 5%Z [3%Z]
                CoverageInstances.add_x_1_built) as H2.
  simpl in H1, H2. split; [exact (proj1 H1)|exact (proj1 H2)].
Defined.

Lemma calculateMaxAffordable_marginal_witness :
  calculateMaxAffordable ZDecimal emptyRegistry MoreOnIntegers.add_x_1_node
    {| Resource_value := 100%Z |} false [3%Z] =
    Throw "Cannot invert non-invertible formula".
Proof.
  exact (calculateMaxAffordable_marginal ZDecimal emptyRegistry
           (GeneralOptions OnIntegers.add_x_1) MoreOnIntegers.add_x_1_node
           {| Resource_value := 100%Z |} [3%Z] CoverageInstances.add_x_1_constructed).
Defined.

Lemma calculateCost_marginal_witness :
  calculateCost ZDecimal emptyRegistry MoreOnIntegers.add_x_1_node 2%Z false [3%Z] =
    Ok (Some 5%Z, [3%Z]).
Proof.
  exact (calculateCost_marginal ZDecimal emptyRegistry MoreOnIntegers.add_x_1_node
           2%Z [3%Z] CoverageInstances.add_x_1_built).
Defined.

Lemma constant_of_integration_built_witness :
  calculateConstantOfIntegration ZDecimal emptyRegistry MoreOnIntegers.x_leaf [3%Z] =
    Ok (0%Z, [3%Z]).
Proof.
  exact (constant_of_integration_built ZDecimal emptyRegistry MoreOnIntegers.x_leaf [3%Z]
           CoverageInstances.x_leaf_built eq_refl).
Defined.

Lemma innermost_variable_is_a_leaf_witness :
  HoldsVariable MoreOnIntegers.add_x_1_node (PCRef 0) /\
  Formula_hasVariable MoreOnIntegers.add_x_1_node = true.
Proof.
  exact (innermost_variable_is_a_leaf MoreOnIntegers.add_x_1_node (PCRef 0)
           CoverageInstances.add_x_1_built eq_refl).
Defined.

Lemma eval_closures_frame_witness :
  evalStep ZDecimal emptyRegistry 1 (variableNode (PCRef 1)) (PCValue 150%Z) 100%Z
    [100%Z; 0%Z] = Ok (Some 100%Z, [100%Z; 0%Z]) /\
  if_evalStep emptyRegistry 1 (variableNode (PCRef 1)) (fun _ => false) 100%Z
    [100%Z; 0%Z] = Ok (Some 100%Z, [100%Z; 0%Z]).
Proof.
  assert (B : Built (variableNode (@PCRef Z 1))).
  { apply (Built_node (VariableOptions (PCRef 1))); [reflexivity|].
    intros g [Hg|[]]. discriminate Hg. }
  destruct (eval_closures_frame ZDecimal emptyRegistry 1 (variableNode (PCRef 1))
              (PCValue 150%Z) (fun _ => false) 100%Z [100%Z; 0%Z] B)
    as (_ & _ & H1 & H2).
  split; [apply H1; reflexivity|apply H2; reflexivity].
Defined.

Lemma invert_closures_need_variable_witness :
  invertStep ZDecimal emptyRegistry MoreOnIntegers.x_leaf (PCValue 150%Z) 250%Z
    (FSValue (PCValue 5%Z)) [3%Z] =
    Throw "Could not invert due to no input being a variable".
Proof.
  exact (proj1 (invert_closures_need_variable ZDecimal emptyRegistry MoreOnIntegers.x_leaf
                  (PCValue 150%Z) (fun _ => true) 250%Z (FSValue (PCValue 5%Z)) [3%Z]
                  eq_refl)).
Defined.

Lemma equals_symmetric_witness :
  equals ZDecimal [3%Z] MoreOnIntegers.add_x_1_node OnIntegers.pow_x_2 =
  equals ZDecimal [3%Z] OnIntegers.pow_x_2 MoreOnIntegers.add_x_1_node.
Proof.
  exact (equals_symmetric ZDecimal [3%Z] MoreOnIntegers.add_x_1_node OnIntegers.pow_x_2
           Z.eqb_sym).
Defined.

Lemma equals_transitive_witness :
  equals ZDecimal [3%Z] MoreOnIntegers.add_x_1_node MoreOnIntegers.add_x_1_node = true.
Proof.
  assert (E : equals ZDecimal [3%Z] MoreOnIntegers.add_x_1_node
                MoreOnIntegers.add_x_1_node = true) by (vm_compute; reflexivity).
  exact (equals_transitive ZDecimal [3%Z] MoreOnIntegers.add_x_1_node
           CoverageInstances.Z_eqb_transitive
           MoreOnIntegers.add_x_1_node MoreOnIntegers.add_x_1_node E E).
Defined.

Lemma equals_of_operation_nodes_witness :
  equals ZDecimal [3%Z] MoreOnIntegers.add_x_1_node MoreOnIntegers.add_x_1_node = true <->
  Forall2 (fun a b => sourceEquals ZDecimal [3%Z] a b = true)
    (o_inputs OnIntegers.add_x_1) (o_inputs OnIntegers.add_x_1) /\
  o_integrate OnIntegers.add_x_1 = o_integrate OnIntegers.add_x_1 /\
  Formula_hasVariable MoreOnIntegers.add_x_1_node =
    Formula_hasVariable MoreOnIntegers.add_x_1_node.
Proof.
  exact (equals_of_operation_nodes ZDecimal OnIntegers.add_x_1 OnIntegers.add_x_1
           MoreOnIntegers.add_x_1_node MoreOnIntegers.add_x_1_node [3%Z]
           CoverageInstances.add_x_1_constructed CoverageInstances.add_x_1_constructed).
Defined.

Lemma equal_formulas_evaluate_alike_witness :
  exists r1 r2,
    evaluate emptyRegistry MoreOnIntegers.add_x_1_node None [3%Z] = Ok (r1, [3%Z]) /\
    evaluate emptyRegistry MoreOnIntegers.add_x_1_node None [3%Z] = Ok (r2, [3%Z]) /\
    d_eq ZDecimal (toDecimal ZDecimal r1) (toDecimal ZDecimal r2) = true.
Proof.
  assert (E : equals ZDecimal [3%Z] MoreOnIntegers.add_x_1_node
                MoreOnIntegers.add_x_1_node = true) by (vm_compute; reflexivity).
  exact (equal_formulas_evaluate_alike ZDecimal emptyRegistry [3%Z]
           MoreOnIntegers.add_x_1_node MoreOnIntegers.add_x_1_node None Z.eqb_refl
           CoverageInstances.add_x_1_built CoverageInstances.add_x_1_built E).
Defined.

(** * Formulas that [equals] does not tell apart *)

(** [Formula.neg(x)] and a node built from the same options with
    another apply-substitution callback carry different callbacks and
    are equal; so are [Formula.abs(x)] and [Formula.floor(x)], built
    from different evaluate callbacks. *)
Lemma equals_overlooks_callbacks :
  (exists f g,
     Formula_neg OnIntegers.x = Ok f /\
     new_Formula (GeneralOptions MoreOnIntegers.neg_x) = Ok f /\
     new_Formula (GeneralOptions MoreOnIntegers.neg_x_passthrough) = Ok g /\
     applySubstitution f = Some (ops_fn "applySubstitutionNeg") /\
     applySubstitution g = Some (ops_fn "passthrough") /\
     applySubstitution f <> applySubstitution g /\
     equals ZDecimal [3%Z] f g = true) /\
  (exists f g,
     Formula_abs OnIntegers.x = Ok f /\
     Formula_floor OnIntegers.x = Ok g /\
     Decimal_fn "abs" <> Decimal_fn "floor" /\
     equals ZDecimal [3%Z] f g = true).
Proof.
  split.
  - eexists. eexists. split; [vm_compute; reflexivity|].
    split; [vm_compute; reflexivity|]. split; [vm_compute; reflexivity|].
    split; [reflexivity|]. split; [reflexivity|].
    split; [discriminate|vm_compute; reflexivity].
  - eexists. eexists. split; [vm_compute; reflexivity|].
    split; [vm_compute; reflexivity|].
    split; [discriminate|vm_compute; reflexivity].
Qed.

(** * The cost of purchases on a bare variable *)

(** With 4 in the cell, two more units cost 18, the whole integral at
    6, where the integral from 4 to 6 is 10; and with 10 in the cell,
    no unit at all costs 50. *)
Example cost_on_variable_leaf :
  let v := variableNode (PCRef 0) in
  calculateCost ZDecimal emptyRegistry v 2%Z true [4%Z] = Ok (Some 18%Z, [4%Z]) /\
  evaluateIntegral ZDecimal emptyRegistry v (Some 6%Z) None [4%Z]
    = Ok ((Some 18%Z, None), [4%Z]) /\
  evaluateIntegral ZDecimal emptyRegistry v (Some 4%Z) None [4%Z]
    = Ok ((Some 8%Z, None), [4%Z]) /\
  calculateCost ZDecimal emptyRegistry v 0%Z true [10%Z] = Ok (Some 50%Z, [10%Z]).
Proof. repeat split. Qed.
